(** * Plynk API client (plynk_api/plynk.py): session lifecycle and data accessors

    A shallow embedding of the [Plynk] class.  The client object and the
    world around it (the file system holding the credential cache, the log
    of HTTP requests, the remote server) are threaded explicitly through a
    state-and-exception monad; the [pickle] codec is a parameter of the
    development.

    Conventions of the embedding:
    - a parsed JSON body is a [json] value; a Python [dict] coming from JSON is
      an association list with unique keys (lookup takes the first binding);
    - a string is a sequence of code points below 256; text with other
      characters is outside the embedding;
    - a Python [float] is a binary64 value: a finite one is the rational it
      equals ([FNum], with [FNegZero] for [-0.0]), the others are the
      infinities and NaN; conversions round to the nearest binary64, ties to
      even;
    - Python's [None] and JSON's [null] are the same value, [JNull];
    - [logging] calls are not modelled (they touch neither the client, the
      file system nor the network);
    - a directory is known by the spelling the client uses for it, with
      trailing slashes removed; the current directory and the root always
      exist;
    - [os.remove] and [os.makedirs] do not fail, no file operation fails
      for lack of permission, and the cache path never names a directory. *)

From stdpp Require Import base option list strings gmap.
From Stdlib Require Import ZArith QArith Ascii String Lia.

#[local] Set Warnings "-register-all".

Local Open Scope string_scope.
Local Open Scope list_scope.
Local Open Scope Z_scope.

(** ** Python values and exceptions *)

Inductive pyfloat :=
| FNum (q : Q)
| FNegZero
| FInf (negative : bool)
| FNaN.

(** What [response.json()] returns. *)
Inductive json :=
| JNull
| JBool (b : bool)
| JInt (n : Z)
| JFloat (f : pyfloat)
| JStr (s : string)
| JList (l : list json)
| JDict (d : list (string * json)).

(** The argument of a [KeyError]: a string key, or the integer of [x[0]]. *)
Inductive key :=
| KStr (s : string)
| KInt (i : Z).

(** The pieces of an f-string: literal text, an interpolated value
    ([{session_status}]), or an interpolated caught exception ([{e}]). *)
Inductive fragment :=
| Text (s : string)
| Value (v : json)
| CaughtKeyError (k : key)
| CaughtIndexError.

Inductive exn :=
| RuntimeError (msg : list fragment)
| NotImplementedError (msg : string)
| HTTPError (status_code : Z)
| RequestsError (msg : string)
| JSONDecodeError
| KeyError (k : key)
| IndexError
| TypeError
| ValueError
| AttributeError
| OverflowError
| FileNotFoundError
| NotADirectoryError.

Inductive outcome (A : Type) :=
| Ok (a : A)
| Raise (e : exn).
Arguments Ok {A} a.
Arguments Raise {A} e.

(** Sequencing of computations that may raise, and [try ... except]. *)
Definition and_then {A B} (o : outcome A) (k : A -> outcome B) : outcome B :=
  match o with
  | Ok a => k a
  | Raise e => Raise e
  end.

Definition except {A} (o : outcome A) (handler : exn -> outcome A) : outcome A :=
  match o with
  | Ok a => Ok a
  | Raise e => handler e
  end.

Notation "'let?' x ':=' o 'in' k" := (and_then o (fun x => k))
  (at level 10, x name, o at level 100, k at level 200).

(** [str(v)] of an f-string piece, for the pieces that are already text. *)
Definition render (f : fragment) : option string :=
  match f with
  | Text s => Some s
  | Value (JStr s) => Some s
  | _ => None
  end.

(** The text of a message whose pieces are all text. *)
Fixpoint message_text (msg : list fragment) : option string :=
  match msg with
  | [] => Some ""
  | f :: msg' =>
      match render f, message_text msg' with
      | Some s, Some t => Some (String.append s t)
      | _, _ => None
      end
  end.

Fixpoint assoc (k : string) (d : list (string * json)) : option json :=
  match d with
  | [] => None
  | (k', v) :: d' => if String.eqb k k' then Some v else assoc k d'
  end.

(** [v[k]] for a string key [k]. *)
Definition getitem (v : json) (k : string) : outcome json :=
  match v with
  | JDict d =>
      match assoc k d with
      | Some x => Ok x
      | None => Raise (KeyError (KStr k))
      end
  | _ => Raise TypeError
  end.

(** [v[0]]. *)
Definition getitem0 (v : json) : outcome json :=
  match v with
  | JList (x :: _) => Ok x
  | JList [] => Raise IndexError
  | JStr (String c _) => Ok (JStr (String c EmptyString))
  | JStr EmptyString => Raise IndexError
  | JDict _ => Raise (KeyError (KInt 0))
  | _ => Raise TypeError
  end.

(** [v.get(k, default)]: only a dict has the method. *)
Definition dict_get (v : json) (k : string) (default : json) : outcome json :=
  match v with
  | JDict d => Ok (match assoc k d with Some x => x | None => default end)
  | _ => Raise AttributeError
  end.

Definition float_truthy (f : pyfloat) : bool :=
  match f with
  | FNum q => negb (Qeq_bool q 0)
  | FNegZero => false
  | _ => true
  end.

(** Truth value of [v] in an [if]. *)
Definition truthy (v : json) : bool :=
  match v with
  | JNull => false
  | JBool b => b
  | JInt n => negb (Z.eqb n 0)
  | JFloat f => float_truthy f
  | JStr s => negb (String.eqb s "")
  | JList l => match l with [] => false | _ => true end
  | JDict d => match d with [] => false | _ => true end
  end.

Definition is_str (k : string) (v : json) : bool :=
  match v with
  | JStr s => String.eqb s k
  | _ => false
  end.

Definition substring_of (k s : string) : bool :=
  match String.index 0 k s with
  | Some _ => true
  | None => false
  end.

(** [k in v] for a string [k]: key of a dict, element of a list, substring of
    a string; the other JSON values are not containers. *)
Definition contains (k : string) (v : json) : outcome bool :=
  match v with
  | JDict d => Ok (match assoc k d with Some _ => true | None => false end)
  | JList l => Ok (existsb (is_str k) l)
  | JStr s => Ok (substring_of k s)
  | _ => Raise TypeError
  end.

(** [v == k] and [v != k] against a string literal. *)
Definition eq_str (v : json) (k : string) : bool := is_str k v.

(** ** [float(...)]

    The builtin accepts a string holding, between optional white space, an
    optional sign and then a decimal numeral (digits, optional fraction,
    optional exponent, single underscores between digits) or one of [inf],
    [infinity], [nan] in any letter case; any other string is a
    [ValueError].  Numbers and booleans convert; [None], lists and dicts are
    a [TypeError].  White space is, below code point 256, the characters 9
    to 13, 32, 133 and 160, and the only decimal digits there are the ASCII
    ones. *)

Definition digit_of (c : ascii) : option Z :=
  let n := Z.of_nat (nat_of_ascii c) in
  if (48 <=? n) && (n <=? 57) then Some (n - 48) else None.

Definition is_space (c : ascii) : bool :=
  let n := Z.of_nat (nat_of_ascii c) in
  (n =? 32) || ((9 <=? n) && (n <=? 13)) || (n =? 133) || (n =? 160).

Definition lower (c : ascii) : ascii :=
  let n := nat_of_ascii c in
  if (65 <=? Z.of_nat n) && (Z.of_nat n <=? 90) then ascii_of_nat (n + 32)%nat else c.

Fixpoint lstrip (cs : list ascii) : list ascii :=
  match cs with
  | c :: cs' => if is_space c then lstrip cs' else cs
  | [] => []
  end.

Definition strip (cs : list ascii) : list ascii :=
  rev (lstrip (rev (lstrip cs))).

(** Reads a digit part: digits, with single underscores between two digits.
    [after_digit] tells whether the previous character was a digit. *)
Fixpoint scan_digits (after_digit : bool) (cs : list ascii) : list Z * list ascii :=
  match cs with
  | [] => ([], [])
  | c :: cs' =>
      match digit_of c with
      | Some d => let '(ds, r) := scan_digits true cs' in (d :: ds, r)
      | None =>
          if after_digit && Ascii.eqb c "_"%char then
            match cs' with
            | c2 :: _ =>
                match digit_of c2 with
                | Some _ => scan_digits false cs'
                | None => ([], cs)
                end
            | [] => ([], cs)
            end
          else ([], cs)
      end
  end.

Definition digits_value (ds : list Z) : Z :=
  fold_left (fun acc d => 10 * acc + d) ds 0.

Definition scan_sign (cs : list ascii) : bool * list ascii :=
  match cs with
  | c :: cs' =>
      if Ascii.eqb c "-"%char then (true, cs')
      else if Ascii.eqb c "+"%char then (false, cs')
      else (false, cs)
  | [] => (false, [])
  end.

(** The exponent: [e] or [E], optional sign, a digit part that ends the string. *)
Definition scan_exponent (cs : list ascii) : option Z :=
  match cs with
  | [] => Some 0
  | c :: cs' =>
      if Ascii.eqb (lower c) "e"%char then
        let '(neg, r) := scan_sign cs' in
        match scan_digits false r with
        | ((_ :: _) as ds, []) =>
            Some (if neg then - digits_value ds else digits_value ds)
        | _ => None
        end
      else None
  end.

(** [n / d] rounded to the nearest integer, ties to even ([0 <= n], [0 < d]). *)
Definition round_half_even (n d : Z) : Z :=
  let q := n / d in
  match 2 * (n mod d) ?= d with
  | Lt => q
  | Gt => q + 1
  | Eq => if Z.even q then q else q + 1
  end.

(** The binary64 nearest to [num / den] ([0 <= num], [0 < den]), as the
    rational it equals; [None] when the rounded value is beyond the largest
    binary64.  The value is [mant * 2^k] with [mant] below [2^53], or with
    [k = -1074] for the subnormal ones. *)
Definition binary64 (num den : Z) : option Q :=
  if num =? 0 then Some (inject_Z 0)
  else
    let g := Z.log2 num - Z.log2 den in
    let at_least := if 0 <=? g then den * 2 ^ g <=? num else den <=? num * 2 ^ (- g) in
    let e2 := if at_least then g else g - 1 in
    let k := Z.max (e2 - 52) (-1074) in
    let mant :=
      if 0 <=? k then round_half_even num (den * 2 ^ k)
      else round_half_even (num * 2 ^ (- k)) den in
    if (0 <=? k) && (2 ^ 1024 <=? mant * 2 ^ k) then None
    else Some (Qred (inject_Z mant * Qpower (inject_Z 2) k)).

Definition signed (negative : bool) (q : Q) : pyfloat :=
  if Qeq_bool q (inject_Z 0) then (if negative then FNegZero else FNum (inject_Z 0))
  else FNum (if negative then Qred (- q) else q).

(** The float of the decimal numeral [m * 10^e] with its sign ([0 <= m]):
    out of range it is an infinity, and it may round to zero. *)
Definition decimal (negative : bool) (m e : Z) : pyfloat :=
  let rounded :=
    if 0 <=? e then binary64 (m * 10 ^ e) 1 else binary64 m (10 ^ (- e)) in
  match rounded with
  | Some q => signed negative q
  | None => FInf negative
  end.

(** [float(n)] for an integer: one that rounds beyond the largest binary64
    is an [OverflowError]. *)
Definition float_of_int (n : Z) : outcome pyfloat :=
  match binary64 (Z.abs n) 1 with
  | Some q => Ok (signed (n <? 0) q)
  | None => Raise OverflowError
  end.

Definition scan_number (negative : bool) (cs : list ascii) : option pyfloat :=
  let '(ip, r) := scan_digits false cs in
  let '(fp, r') :=
    match r with
    | c :: r1 => if Ascii.eqb c "."%char then scan_digits false r1 else ([], r)
    | [] => ([], [])
    end in
  match ip, fp with
  | [], [] => None
  | _, _ =>
      match scan_exponent r' with
      | Some e =>
          Some (decimal negative (digits_value (ip ++ fp)%list) (e - Z.of_nat (List.length fp)))
      | None => None
      end
  end.

Definition float_of_string (s : string) : option pyfloat :=
  let '(neg, body) := scan_sign (strip (list_ascii_of_string s)) in
  let word := string_of_list_ascii (List.map lower body) in
  if String.eqb word "inf" || String.eqb word "infinity" then Some (FInf neg)
  else if String.eqb word "nan" then Some FNaN
  else scan_number neg body.

(** [float(v)]. *)
Definition py_float (v : json) : outcome pyfloat :=
  match v with
  | JStr s =>
      match float_of_string s with
      | Some f => Ok f
      | None => Raise ValueError
      end
  | JInt n => float_of_int n
  | JFloat f => Ok f
  | JBool b => float_of_int (if b then 1 else 0)
  | _ => Raise TypeError
  end.

(** The literal [0.0]. *)
Definition zero_float : pyfloat := decimal false 0 0.


(** ** Cookies and the HTTP session *)

Record Cookie := {
  cookie_name : string;
  cookie_value : string;
  cookie_domain : string;
  cookie_path : string;
  cookie_expires : option Z;
  cookie_secure : bool;
  cookie_httponly : bool
}.

(** [session.cookies.jar._cookies]: domain, then path, then name. *)
Abbreviation CookieJar := (gmap string (gmap string (gmap string Cookie))).

(** [CookieJar.set_cookie]. *)
Definition set_cookie (jar : CookieJar) (c : Cookie) : CookieJar :=
  let c2 := default ∅ (jar !! cookie_domain c) in
  let c3 := default ∅ (c2 !! cookie_path c) in
  <[cookie_domain c := <[cookie_path c := <[cookie_name c := c]> c3]> c2]> jar.

(** [requests.Session]: the fields this client sets or reads. *)
Record Session := {
  impersonate : string;
  timeout : Z;
  proxies : gmap string string;
  session_proxy_auth : option (string * string);
  cookies : CookieJar
}.

Definition with_cookies (j : CookieJar) (s : Session) : Session :=
  {| impersonate := impersonate s; timeout := timeout s; proxies := proxies s;
     session_proxy_auth := session_proxy_auth s; cookies := j |}.

(** ** Requests, responses and the endpoint resolver

    The [endpoints] module is a collaborator: each of its URL functions is a
    symbolic endpoint, and [build_headers(domain, login_poll)] is the record
    of its arguments. *)

Inductive method := GET | POST.

Inductive endpoint :=
| authentication_url
| login_url
| details_url
| balance_url
| positions_url
| stock_details_url.

Record headers := build_headers {
  domain : string;
  login_poll : bool
}.

Record Request := {
  req_method : method;
  req_url : endpoint;
  req_headers : headers;
  req_json : option json;
  req_params : list (string * string);
  req_timeout : option Z
}.

(** [body] is [None] when the text of the response is not JSON;
    [set_cookies] are the cookies the jar takes from the response. *)
Record Response := {
  status_code : Z;
  body : option json;
  set_cookies : list Cookie
}.

(** What the transport gives back: a response, or an exception of its own
    (time-out, refused connection). *)
Inductive Reply :=
| Answer (r : Response)
| Failure (msg : string).

(** [Response.ok] as curl_cffi sets it: a status from 200 up to 399. *)
Definition ok (r : Response) : bool :=
  (200 <=? status_code r) && (status_code r <? 400).

Definition raise_for_status (r : Response) : outcome unit :=
  if ok r then Ok tt else Raise (HTTPError (status_code r)).

(** [response.json()]. *)
Definition json_of (r : Response) : outcome json :=
  match body r with
  | Some j => Ok j
  | None => Raise JSONDecodeError
  end.

(** ** The credential file and [pickle] *)

(** A value stored under a key of the pickled dict, as [dict.update] takes
    it: a mapping from domains ([PCookies]); an iterable that begins with
    these key/value pairs ([PPairs]: [update] stores them in order, and then
    either the iterable ends or an element that is no pair raises); or a
    value that [update] rejects before it stores anything ([POther]: [None],
    a number).  Values that would put something other than a cookie mapping
    under a domain are outside the embedding. *)
Inductive pickled_value :=
| PCookies (j : CookieJar)
| PPairs (items : list (string * gmap string (gmap string Cookie)))
| POther.

(** What [pickle.load] can give back. *)
Inductive unpickled :=
| PDict (d : gmap string pickled_value)
| PNotDict.

(** The [pickle] module: [blob] is the content of a file, [pickle_load] is
    [None] where the module raises. *)
Class Pickle := {
  blob : Type;
  pickle_dump : unpickled -> blob;
  pickle_load : blob -> option unpickled
}.

(** [pickle] gives back what was dumped. *)
Class PickleLossless `{Pickle} : Prop :=
  pickle_load_dump : forall o, pickle_load (pickle_dump o) = Some o.

(** ** The client object *)

Record Plynk := {
  username : string;
  password : string;
  filename : string;
  path : option string;
  proxy_url : option string;
  proxy_auth : option (string * string);
  debug : bool;
  session : Session;
  account_number : json;
  logged_in : bool
}.

Definition with_session (s : Session) (c : Plynk) : Plynk :=
  {| username := username c; password := password c; filename := filename c;
     path := path c; proxy_url := proxy_url c; proxy_auth := proxy_auth c;
     debug := debug c; session := s; account_number := account_number c;
     logged_in := logged_in c |}.

Definition with_account_number (a : json) (c : Plynk) : Plynk :=
  {| username := username c; password := password c; filename := filename c;
     path := path c; proxy_url := proxy_url c; proxy_auth := proxy_auth c;
     debug := debug c; session := session c; account_number := a;
     logged_in := logged_in c |}.

Definition with_logged_in (b : bool) (c : Plynk) : Plynk :=
  {| username := username c; password := password c; filename := filename c;
     path := path c; proxy_url := proxy_url c; proxy_auth := proxy_auth c;
     debug := debug c; session := session c; account_number := account_number c;
     logged_in := b |}.

(** [s or '.'] for an optional string. *)
Definition or_dot (s : option string) : string :=
  match s with
  | Some p => if String.eqb p "" then "." else p
  | None => "."
  end.

Definition str_truthy (s : option string) : bool :=
  match s with
  | Some p => negb (String.eqb p "")
  | None => false
  end.

Fixpoint ends_with_slash (s : string) : bool :=
  match s with
  | EmptyString => false
  | String c EmptyString => Ascii.eqb c "/"%char
  | String _ s' => ends_with_slash s'
  end.

(** [os.path.join(a, b)] on POSIX. *)
Definition path_join (a b : string) : string :=
  match b with
  | String c _ =>
      if Ascii.eqb c "/"%char then b
      else if String.eqb a "" || ends_with_slash a then a ++ b
      else a ++ "/" ++ b
  | EmptyString =>
      if String.eqb a "" || ends_with_slash a then a else a ++ "/"
  end.

Fixpoint lstrip_slash (cs : list ascii) : list ascii :=
  match cs with
  | c :: cs' => if Ascii.eqb c "/"%char then lstrip_slash cs' else cs
  | [] => []
  end.

(** On a reversed path: drops the last component, up to its slash. *)
Fixpoint drop_to_slash (cs : list ascii) : list ascii :=
  match cs with
  | c :: cs' => if Ascii.eqb c "/"%char then cs else drop_to_slash cs'
  | [] => []
  end.

(** [os.path.dirname(p)] on POSIX: what comes before the last slash, without
    its trailing slashes unless it is made of slashes only. *)
Definition dirname (p : string) : string :=
  let head := drop_to_slash (rev (list_ascii_of_string p)) in
  string_of_list_ascii
    (rev (match lstrip_slash head with [] => head | stripped => stripped end)).

(** The spelling under which a directory is known: without trailing slashes,
    unless it is made of slashes only. *)
Definition strip_slashes (p : string) : string :=
  let chars := rev (list_ascii_of_string p) in
  string_of_list_ascii
    (rev (match lstrip_slash chars with [] => chars | stripped => stripped end)).

(** The proper prefixes of a path that end before a slash: the ancestors
    [os.makedirs] creates on the way.  [seen] is what was read, reversed. *)
Fixpoint ancestors (seen rest : list ascii) : list string :=
  match rest with
  | [] => []
  | c :: rest' =>
      (if Ascii.eqb c "/"%char then
         match seen with
         | [] => []
         | last :: _ =>
             if Ascii.eqb last "/"%char then []
             else [string_of_list_ascii (rev seen)]
         end
       else []) ++ ancestors (c :: seen) rest'
  end.

(** The directories that exist after [os.makedirs(p)], besides those that
    existed. *)
Definition makedirs (p : string) : gset string :=
  list_to_set (strip_slashes p :: ancestors [] (list_ascii_of_string p)).

(** [os.path.join(self.path or '.', self.filename)]. *)
Definition cache_file (c : Plynk) : string :=
  path_join (or_dot (path c)) (filename c).

(** ** The world around the client

    [files] maps a path to the content of the file there, [dirs] are the
    directories that exist.  [requests] logs every request the session sent,
    oldest first, each with the session and the files as they were when it
    left.  [server] is the remote side: its reply may depend on everything it
    has been sent before. *)

Section Client.
Context `{Pickle}.

Record Sent := {
  sent_request : Request;
  sent_session : Session;
  sent_files : gmap string blob
}.

Record World := {
  files : gmap string blob;
  dirs : gset string;
  requests : list Sent;
  server : list Sent -> Sent -> Reply
}.

Record State := {
  client : Plynk;
  world : World
}.

(** Whether [d] is an existing directory, and [os.path.exists(p)]. *)
Definition is_dir (w : World) (d : string) : bool :=
  String.eqb d "" || String.eqb d "." || String.eqb d "/" || bool_decide (d ∈ dirs w).

Definition path_exists (w : World) (p : string) : bool :=
  is_dir w (strip_slashes p) || bool_decide (is_Some (files w !! p)).

Definition with_client (c : Plynk) (st : State) : State :=
  {| client := c; world := world st |}.

Definition with_files (f : gmap string blob) (w : World) : World :=
  {| files := f; dirs := dirs w; requests := requests w; server := server w |}.

Definition with_dirs (d : gset string) (w : World) : World :=
  {| files := files w; dirs := d; requests := requests w; server := server w |}.

Definition with_requests (l : list Sent) (w : World) : World :=
  {| files := files w; dirs := dirs w; requests := l; server := server w |}.

Definition with_world (w : World) (st : State) : State :=
  {| client := client st; world := w |}.

(** ** State and exceptions *)

Definition M (A : Type) : Type := State -> outcome A * State.

Definition ret {A} (a : A) : M A := fun st => (Ok a, st).

Definition raise {A} (e : exn) : M A := fun st => (Raise e, st).

Definition bind {A B} (m : M A) (k : A -> M B) : M B :=
  fun st =>
    match m st with
    | (Ok a, st') => k a st'
    | (Raise e, st') => (Raise e, st')
    end.

(** A pure computation that may raise. *)
Definition lift {A} (o : outcome A) : M A := fun st => (o, st).

(** [try: m  except ...: handler e]; a handler re-raises what its [except]
    clause does not name. *)
Definition try_except {A} (m : M A) (handler : exn -> M A) : M A :=
  fun st =>
    match m st with
    | (Ok a, st') => (Ok a, st')
    | (Raise e, st') => handler e st'
    end.

Definition self : M Plynk := fun st => (Ok (client st), st).

Definition update_self (f : Plynk -> Plynk) : M unit :=
  fun st => (Ok tt, with_client (f (client st)) st).

Definition the_world : M World := fun st => (Ok (world st), st).

Definition update_world (f : World -> World) : M unit :=
  fun st => (Ok tt, with_world (f (world st)) st).

End Client.

Notation "x <- m ;; k" := (bind m (fun x => k))
  (at level 100, m at next level, right associativity).
Notation "m ;; k" := (bind m (fun _ => k))
  (at level 100, right associativity).

Section Methods.
Context `{Pickle}.

(** What leaves the client when it sends [rq] in state [st]. *)
Definition outgoing (rq : Request) (st : State) : Sent :=
  {| sent_request := rq;
     sent_session := session (client st);
     sent_files := files (world st) |}.

(** The reply the server would give to [rq] sent in state [st]. *)
Definition reply_to (rq : Request) (st : State) : Reply :=
  server (world st) (requests (world st)) (outgoing rq st).

(** [self.session.get(...)] and [self.session.post(...)]: the request is
    logged, the reply is asked of the server, and the cookies of a response
    go into the jar. *)
Definition send (rq : Request) : M Response :=
  fun st =>
    let st' := with_world (with_requests (requests (world st) ++ [outgoing rq st]) (world st)) st in
    match reply_to rq st with
    | Failure msg => (Raise (RequestsError msg), st')
    | Answer r =>
        let s := session (client st) in
        let jar := fold_left set_cookie (set_cookies r) (cookies s) in
        (Ok r, with_client (with_session (with_cookies jar s) (client st)) st')
    end.

(** [_set_session]: a new session replaces the old one. *)
Definition new_session (proxy_url : option string)
    (proxy_auth : option (string * string)) : Session :=
  let s := {| impersonate := "safari_ios"; timeout := 10; proxies := ∅;
              session_proxy_auth := None; cookies := ∅ |} in
  match proxy_url with
  | Some url =>
      if str_truthy proxy_url then
        {| impersonate := impersonate s; timeout := timeout s;
           proxies := <["http" := url]> (<["https" := url]> ∅);
           session_proxy_auth :=
             match proxy_auth with Some a => Some a | None => session_proxy_auth s end;
           cookies := cookies s |}
      else s
  | None => s
  end.

Definition _set_session (proxy_url : option string)
    (proxy_auth : option (string * string)) : M unit :=
  update_self (with_session (new_session proxy_url proxy_auth)).

(** [_load_credentials].  The [try] body raises when the file does not
    unpickle, when the object has no [get] ([AttributeError]) or when
    [update] meets something that is no key/value pair; [except Exception]
    swallows all of these, and the jar keeps what [update] had stored by
    then. *)
Definition _load_credentials : M unit :=
  c <- self ;;
  w <- the_world ;;
  let filename := cache_file c in
  match files w !! filename with
  | Some content =>
      match pickle_load content with
      | Some (PDict credentials) =>
          match default (PCookies ∅) (credentials !! "cookies") with
          | PCookies loaded =>
              update_self (with_session (with_cookies (loaded ∪ cookies (session c)) (session c)))
          | PPairs items =>
              update_self (with_session
                (with_cookies
                   (fold_left (fun jar item => <[fst item := snd item]> jar) items
                      (cookies (session c)))
                   (session c)))
          | POther => ret tt
          end
      | Some PNotDict => ret tt
      | None => ret tt
      end
  | None => ret tt
  end.

(** [_save_credentials].  [open(filename, "wb")] needs the directory of the
    file: it raises [FileNotFoundError] when that directory does not exist,
    and [NotADirectoryError] when a file is in its place. *)
Definition _save_credentials : M unit :=
  c <- self ;;
  w <- the_world ;;
  let filename := cache_file c in
  (match path c with
   | Some p =>
       if str_truthy (path c) && negb (path_exists w p)
       then update_world (with_dirs (makedirs p ∪ dirs w))
       else ret tt
   | None => ret tt
   end) ;;
  w <- the_world ;;
  if is_dir w (dirname filename) then
    let credentials_to_save := PDict {["cookies" := PCookies (cookies (session c))]} in
    update_world (fun w => with_files (<[filename := pickle_dump credentials_to_save]> (files w)) w)
  else if bool_decide (is_Some (files w !! dirname filename)) then raise NotADirectoryError
  else raise FileNotFoundError.

(** [_clear_credentials]. *)
Definition _clear_credentials : M unit :=
  c <- self ;;
  w <- the_world ;;
  let filename := cache_file c in
  (match files w !! filename with
   | Some _ => update_world (with_files (delete filename (files w)))
   | None => ret tt
   end) ;;
  _set_session (proxy_url c) (proxy_auth c).

(** The two requests to the details endpoint: the probe of [_verify_login]
    (five-second time-out) and the fetch of [_fetch_account_number]. *)
Definition verify_request : Request :=
  {| req_method := GET; req_url := details_url;
     req_headers := build_headers "digital" false;
     req_json := None; req_params := []; req_timeout := Some 5 |}.

Definition details_request : Request :=
  {| req_method := GET; req_url := details_url;
     req_headers := build_headers "digital" false;
     req_json := None; req_params := []; req_timeout := None |}.

(** The password authentication and the poll of [login]. *)
Definition authentication_request (c : Plynk) : Request :=
  {| req_method := POST; req_url := authentication_url;
     req_headers := build_headers "ecaap" false;
     req_json := Some (JDict [("username", JStr (username c));
                              ("requestBaseInfo", JNull);
                              ("password", JStr (password c))]);
     req_params := []; req_timeout := None |}.

Definition poll_request : Request :=
  {| req_method := POST; req_url := login_url;
     req_headers := build_headers "ecaap" true;
     req_json := Some (JDict []); req_params := []; req_timeout := None |}.

(** [_verify_login]: any exception of the probe is swallowed. *)
Definition _verify_login : M bool :=
  try_except
    (response <- send verify_request ;;
     ret (status_code response =? 200))
    (fun e => ret false).

(** The [try] block of [_fetch_account_number] on the parsed details. *)
Definition account_number_of (data : json) : outcome json :=
  except
    (let? user := getitem data "user" in
     let? customer := getitem user "customer" in
     let? accounts := getitem customer "accounts" in
     let? first := getitem0 accounts in
     getitem first "accountNumber")
    (fun e =>
       match e with
       | KeyError k =>
           Raise (RuntimeError
                    [Text "Could not parse account number from details response: ";
                     CaughtKeyError k])
       | IndexError =>
           Raise (RuntimeError
                    [Text "Could not parse account number from details response: ";
                     CaughtIndexError])
       | _ => Raise e
       end).

(** [_fetch_account_number]. *)
Definition _fetch_account_number : M json :=
  response <- send details_request ;;
  lift (raise_for_status response) ;;
  data <- lift (json_of response) ;;
  lift (account_number_of data).

(** [poll_data.get("responseBaseInfo", {}).get("status", {}).get("message", "")]. *)
Definition status_message (poll_data : json) : outcome json :=
  let? base := dict_get poll_data "responseBaseInfo" (JDict []) in
  let? status := dict_get base "status" (JDict []) in
  dict_get status "message" (JStr "").

(** [login].  The [otp_callback] argument is never used. *)
Definition login : M bool :=
  valid <- _verify_login ;;
  if valid then
    update_self (with_logged_in true) ;;
    account_num <- _fetch_account_number ;;
    update_self (with_account_number account_num) ;;
    ret true
  else
    _clear_credentials ;;
    c <- self ;;
    auth_response <- send (authentication_request c) ;;
    lift (raise_for_status auth_response) ;;
    poll_response <- send poll_request ;;
    lift (raise_for_status poll_response) ;;
    poll_data <- lift (json_of poll_response) ;;
    session_status <- lift (status_message poll_data) ;;
    if eq_str session_status "Authentication Not Completed" then
      raise (NotImplementedError "OTP flow is defined but needs to be triggered to be tested.")
    else if negb (eq_str session_status "Session Created") then
      raise (RuntimeError [Text "Login failed with unexpected status: "; Value session_status])
    else
      update_self (with_logged_in true) ;;
      account_num <- _fetch_account_number ;;
      update_self (with_account_number account_num) ;;
      _save_credentials ;;
      ret true.

(** The parts of [login] by themselves, for stating what each does:
    [reuse] is the branch taken when the probe succeeds, [handshake] the
    fresh login from the password request to the status message of the
    poll, [conclude] the branch on that message. *)
Definition reuse : M bool :=
  update_self (with_logged_in true) ;;
  account_num <- _fetch_account_number ;;
  update_self (with_account_number account_num) ;;
  ret true.

Definition handshake : M json :=
  c <- self ;;
  auth_response <- send (authentication_request c) ;;
  lift (raise_for_status auth_response) ;;
  poll_response <- send poll_request ;;
  lift (raise_for_status poll_response) ;;
  poll_data <- lift (json_of poll_response) ;;
  lift (status_message poll_data).

Definition conclude (session_status : json) : M bool :=
  if eq_str session_status "Authentication Not Completed" then
    raise (NotImplementedError "OTP flow is defined but needs to be triggered to be tested.")
  else if negb (eq_str session_status "Session Created") then
    raise (RuntimeError [Text "Login failed with unexpected status: "; Value session_status])
  else
    update_self (with_logged_in true) ;;
    account_num <- _fetch_account_number ;;
    update_self (with_account_number account_num) ;;
    _save_credentials ;;
    ret true.

(** The states in between: after [self.logged_in = True], after
    [self.account_number = a], after [_clear_credentials], and after
    [_save_credentials]. *)
Definition mark_logged_in (st : State) : State :=
  with_client (with_logged_in true (client st)) st.

Definition record_account (a : json) (st : State) : State :=
  with_client (with_account_number a (client st)) st.

Definition cleared (st : State) : State :=
  {| client := with_session (new_session (proxy_url (client st)) (proxy_auth (client st)))
                 (client st);
     world := with_files (delete (cache_file (client st)) (files (world st))) (world st) |}.

Definition saved (st : State) : State := snd (_save_credentials st).

(** The state after the [os.makedirs] step of [_save_credentials], and
    whether the credential file can then be opened for writing. *)
Definition prepared (st : State) : State :=
  match path (client st) with
  | Some p =>
      if str_truthy (path (client st)) && negb (path_exists (world st) p)
      then with_world (with_dirs (makedirs p ∪ dirs (world st)) (world st)) st
      else st
  | None => st
  end.

Definition can_save (st : State) : bool :=
  is_dir (world (prepared st)) (dirname (cache_file (client st))).

(** The content [_save_credentials] writes for a client. *)
Definition credentials_of (c : Plynk) : blob :=
  pickle_dump (PDict {["cookies" := PCookies (cookies (session c))]}).

(** [__init__]: the object is built, then the credential file is read. *)
Definition init (username password filename : string) (path proxy_url : option string)
    (proxy_auth : option (string * string)) (debug : bool) (w : World) : State :=
  let c := {| username := username; password := password; filename := filename;
              path := path; proxy_url := proxy_url; proxy_auth := proxy_auth;
              debug := debug; session := new_session proxy_url proxy_auth;
              account_number := JNull; logged_in := false |} in
  snd (_load_credentials {| client := c; world := w |}).

(** ** Data accessors *)

(** The decorator [check_login]. *)
Definition check_login {A} (func : M A) : M A :=
  c <- self ;;
  if negb (logged_in c) then
    raise (RuntimeError [Text "Plynk not logged in. Please login first."])
  else func.

Definition accounts_payload (account_number : string) : json :=
  JDict [("accounts",
          JList [JDict [("accountNumber", JStr account_number);
                        ("registrationType", JStr "I")]])].

Definition balance_request (account_number : string) : Request :=
  {| req_method := POST; req_url := balance_url;
     req_headers := build_headers "digital" false;
     req_json := Some (accounts_payload account_number);
     req_params := []; req_timeout := None |}.

Definition positions_request (account_number : string) : Request :=
  {| req_method := POST; req_url := positions_url;
     req_headers := build_headers "digital" false;
     req_json := Some (accounts_payload account_number);
     req_params := []; req_timeout := None |}.

Definition stock_details_request (ticker : string) : Request :=
  {| req_method := GET; req_url := stock_details_url;
     req_headers := build_headers "digital" false;
     req_json := None;
     req_params := [("quoteType", "R"); ("symbol", ticker);
                    ("proIndicator", "N"); ("contextLevel", "2")];
     req_timeout := None |}.

(** [accounts[0]["balanceSummary"]["totalAssets"]] as a float, for
    [accounts = response_json["accounts"]]. *)
Definition total_assets (accounts : json) : outcome pyfloat :=
  let? first := getitem0 accounts in
  let? summary := getitem first "balanceSummary" in
  let? total := getitem summary "totalAssets" in
  py_float total.

(** The body of [get_account_total] after the response is parsed: the guard
    ["accounts" in response_json and response_json["accounts"]], then the
    [try] block. *)
Definition account_total_of (response_json : json) : outcome pyfloat :=
  let? present := contains "accounts" response_json in
  let? nonempty :=
    if present then
      let? accounts := getitem response_json "accounts" in Ok (truthy accounts)
    else Ok false in
  if nonempty then
    except
      (let? accounts := getitem response_json "accounts" in
       total_assets accounts)
      (fun e =>
         match e with
         | KeyError _ | ValueError | IndexError =>
             Raise (RuntimeError [Text "Unable to parse account total value."])
         | _ => Raise e
         end)
  else Ok zero_float.

Definition get_account_total (account_number : string) : M pyfloat :=
  check_login
    (response <- send (balance_request account_number) ;;
     lift (raise_for_status response) ;;
     response_json <- lift (json_of response) ;;
     lift (account_total_of response_json)).

Definition get_positions (account_number : string) : M json :=
  check_login
    (response <- send (positions_request account_number) ;;
     lift (raise_for_status response) ;;
     lift (json_of response)).

Definition get_account_holdings (account_number : string) : M json :=
  check_login
    (result <- get_positions account_number ;;
     accounts <- lift (getitem result "accounts") ;;
     first <- lift (getitem0 accounts) ;;
     summary <- lift (dict_get first "positionsSummary" (JDict [])) ;;
     lift (dict_get summary "positions" (JList []))).

Definition get_stock_details (ticker : string) : M json :=
  check_login
    (response <- send (stock_details_request ticker) ;;
     lift (raise_for_status response) ;;
     lift (json_of response)).

(** What [get_account_holdings] takes out of the positions:
    [result["accounts"][0].get("positionsSummary", {}).get("positions", [])]. *)
Definition positions_of (result : json) : outcome json :=
  let? accounts := getitem result "accounts" in
  let? first := getitem0 accounts in
  let? summary := dict_get first "positionsSummary" (JDict []) in
  dict_get summary "positions" (JList []).

(** The [try] block of [get_stock_price] on the parsed stock details. *)
Definition stock_price_of (response : json) : outcome pyfloat :=
  except
    (let? details := getitem response "securityDetails" in
     let? price := getitem details "lastPrice" in
     py_float price)
    (fun e =>
       match e with
       | KeyError _ | ValueError =>
           Raise (RuntimeError [Text "Unable to get float value for stock price."])
       | _ => Raise e
       end).

Definition get_stock_price (ticker : string) : M pyfloat :=
  check_login
    (response <- get_stock_details ticker ;;
     lift (stock_price_of response)).

(** What an accessor makes of the reply to its one request: a transport
    failure is raised as it is, a failure status as an [HTTPError], and
    otherwise [parse] is applied to the JSON body. *)
Definition fetched {A} (rq : Request) (parse : json -> outcome A) (st : State)
    : outcome A * State :=
  (match fst (send rq st) with
   | Ok r => if ok r then and_then (json_of r) parse else Raise (HTTPError (status_code r))
   | Raise e => Raise e
   end, snd (send rq st)).

(** ** What a computation leaves alone

    [preserves R m]: the state [m] ends in, whether it returns or raises, is
    related by [R] to the state it started from. *)
Definition preserves {A} (R : State -> State -> Prop) (m : M A) : Prop :=
  forall st, R st (snd (m st)).

(** Only the cookie jar of the session and the request log may differ. *)
Definition network_only (st st' : State) : Prop :=
  with_session (with_cookies (cookies (session (client st))) (session (client st')))
    (client st') = client st /\
  with_requests (requests (world st)) (world st') = world st.

(** [logged_in] is what it was. *)
Definition keeps_login (st st' : State) : Prop :=
  logged_in (client st') = logged_in (client st).

(** A logged request that does not go to the authentication endpoint. *)
Definition elsewhere (s : Sent) : Prop :=
  req_url (sent_request s) <> authentication_url.

(** The exceptions the [try] blocks of the accessors turn into a parse
    error: a missing key or element, or a string that is no number. *)
Definition missing_or_not_a_number (e : exn) : bool :=
  match e with
  | KeyError _ | IndexError | ValueError => true
  | _ => false
  end.

(** The exceptions a parser of a response lets out: the parse error it
    raises itself, or the [TypeError] of a value of the wrong type. *)
Definition parse_or_type_error (e : exn) : bool :=
  match e with
  | RuntimeError _ | TypeError => true
  | _ => false
  end.

(** The requests that were sent between [st] and [st']. *)
Definition sent_between (st st' : State) (l : list Sent) : Prop :=
  requests (world st') = requests (world st) ++ l.

End Methods.

(** ** The error kinds of the specification, as the exceptions raised here *)

Definition NotLoggedInError : exn :=
  RuntimeError [Text "Plynk not logged in. Please login first."].

Definition OtpRequiredUnsupported : exn :=
  NotImplementedError "OTP flow is defined but needs to be triggered to be tested.".

Definition LoginRejectedError (status : json) : exn :=
  RuntimeError [Text "Login failed with unexpected status: "; Value status].

Definition AccountTotalParseError : exn :=
  RuntimeError [Text "Unable to parse account total value."].

Definition StockPriceParseError : exn :=
  RuntimeError [Text "Unable to get float value for stock price."].

(** ** Concrete runs *)

Module Run.

(** A codec that stores the object itself. *)
Definition stored : Pickle :=
  {| blob := unpickled; pickle_dump := fun o => o; pickle_load := Some |}.

(** A server that answers the n-th request it sees with the n-th reply of a
    script, and refuses the connection afterwards. *)
Definition scripted (script : list Reply) : list (@Sent stored) -> @Sent stored -> Reply :=
  fun history _ => nth (List.length history) script (Failure "connection refused").

Definition answer (status : Z) (content : json) : Reply :=
  Answer {| status_code := status; body := Some content; set_cookies := [] |}.

Definition sid : Cookie :=
  {| cookie_name := "sid"; cookie_value := "abc123"; cookie_domain := "plynk.example";
     cookie_path := "/"; cookie_expires := Some 1767225600; cookie_secure := true;
     cookie_httponly := true |}.

Definition user (logged : bool) (jar : CookieJar) : Plynk :=
  {| username := "ann"; password := "secret"; filename := "plynk_credentials.pkl";
     path := None; proxy_url := None; proxy_auth := None; debug := false;
     session := with_cookies jar (new_session None None);
     account_number := JNull; logged_in := logged |}.

Definition start (logged : bool) (jar : CookieJar) (disk : gmap string unpickled)
    (script : list Reply) : @State stored :=
  @Build_State stored (user logged jar)
    (@Build_World stored disk ∅ [] (scripted script)).

Definition details_body : json :=
  JDict [("user", JDict [("customer",
            JDict [("accounts", JList [JDict [("accountNumber", JStr "Z123")]])])])].

Definition poll_body (message : string) : json :=
  JDict [("responseBaseInfo", JDict [("status", JDict [("message", JStr message)])])].

Definition old_jar : CookieJar := set_cookie ∅ sid.

Definition old_disk : gmap string unpickled :=
  {["./plynk_credentials.pkl" := PDict {["cookies" := PCookies old_jar]}]}.

(** A client that never logged in, with nothing on disk. *)
Definition logged_out : @State stored := start false ∅ ∅ [].

(** A logged-in client whose next requests get the replies of [script]. *)
Definition signed_in (script : list Reply) : @State stored := start true ∅ ∅ script.

(** An old session the server still accepts; the second run gets a details
    body without the expected fields. *)
Definition reuse_ok : @State stored :=
  start false old_jar old_disk [answer 200 details_body; answer 200 details_body].

Definition reuse_bad_shape : @State stored :=
  start false old_jar old_disk [answer 200 (JDict []); answer 200 (JDict [])].

(** An old session the server rejects (401), then a password login whose
    poll says [message]; [tail] are the replies after the poll. *)
Definition fresh (message : string) (tail : list Reply) : @State stored :=
  start false old_jar old_disk
    ([answer 401 JNull; answer 200 JNull; answer 200 (poll_body message)] ++ tail).

Definition after_probe (st : @State stored) : @State stored := snd (_verify_login st).

Definition after_poll (st : @State stored) : @State stored :=
  snd (handshake (cleared (after_probe st))).

Definition after_fetch (st : @State stored) : @State stored :=
  snd (_fetch_account_number (mark_logged_in st)).

Definition null_price : json :=
  JDict [("securityDetails", JDict [("lastPrice", JNull)])].

Definition empty_accounts : json := JDict [("accounts", JList [])].

Definition no_total : json :=
  JDict [("accounts", JList [JDict [("balanceSummary", JDict [])]])].

(** A second cookie, of another domain, and a jar that holds an older
    [sid] for the first domain. *)
Definition pref : Cookie :=
  {| cookie_name := "pref"; cookie_value := "dark"; cookie_domain := "other.example";
     cookie_path := "/"; cookie_expires := None; cookie_secure := false;
     cookie_httponly := false |}.

Definition stale_sid : Cookie :=
  {| cookie_name := "sid"; cookie_value := "old"; cookie_domain := "plynk.example";
     cookie_path := "/"; cookie_expires := Some 1700000000; cookie_secure := true;
     cookie_httponly := true |}.

Definition stale_jar : CookieJar := set_cookie (set_cookie ∅ stale_sid) pref.

(** A client whose jar differs from the one in the credential file. *)
Definition before_load : @State stored := start false stale_jar old_disk [].

(** A credential file that unpickles to something that is no dict. *)
Definition junk_disk : gmap string unpickled :=
  {["./plynk_credentials.pkl" := PNotDict]}.

Definition before_junk_load : @State stored := start false stale_jar junk_disk [].

(** A logged-in client whose session has expired (401) and whose password
    is then refused (403). *)
Definition refused : @State stored :=
  start true old_jar old_disk [answer 401 JNull; answer 403 JNull].

(** A fresh login whose poll is answered with [content]. *)
Definition polled (content : json) : @State stored :=
  start false old_jar old_disk [answer 401 JNull; answer 200 JNull; answer 200 content].

(** A fresh login in which the server sets the session cookie when it
    accepts the password. *)
Definition granted : @State stored :=
  start false stale_jar old_disk
    [answer 401 JNull;
     Answer {| status_code := 200; body := Some JNull; set_cookies := [sid] |};
     answer 200 (poll_body "Session Created");
     answer 200 details_body].

Definition one_account_without_summary : json :=
  JDict [("accounts", JList [JDict [("accountNumber", JStr "Z123")]])].


(** A client behind a proxy that keeps its credential file in a
    subdirectory, [cache], which does not exist; the server accepts the
    password. *)
Definition behind_proxy : Plynk :=
  {| username := "ann"; password := "secret"; filename := "cache/plynk.pkl";
     path := None; proxy_url := Some "http://proxy.example:8080";
     proxy_auth := Some ("ann", "pw"); debug := false;
     session := with_cookies old_jar
                  (new_session (Some "http://proxy.example:8080") (Some ("ann", "pw")));
     account_number := JNull; logged_in := false |}.

Definition lost_directory : @State stored :=
  @Build_State stored behind_proxy
    (@Build_World stored ∅ ∅ []
       (scripted [answer 401 JNull; answer 200 JNull;
                  answer 200 (poll_body "Session Created"); answer 200 details_body])).


(** A credential file whose ["cookies"] entry is a list of key/value pairs
    that goes on with something else. *)
Definition pairs_disk : gmap string unpickled :=
  {["./plynk_credentials.pkl" :=
      PDict {["cookies" := PPairs [("plynk.example", {["/" := {["sid" := sid]}]})]]}]}.

Definition before_pairs_load : @State stored := start false stale_jar pairs_disk [].

End Run.


(** * Properties *)

Create HintDb frame discriminated.

Section Properties.
Context `{Pickle}.

Lemma with_session_same c : with_session (session c) c = c.
Proof. by destruct c. Qed.

Lemma with_requests_same (w : World) : with_requests (requests w) w = w.
Proof. by destruct w. Qed.

Lemma with_jar_same c :
  with_session (with_cookies (cookies (session c)) (session c)) c = c.
Proof. destruct c as [? ? ? ? ? ? ? [] ? ?]. done. Qed.

#[export] Instance network_only_preorder : PreOrder network_only.
Proof.
  split.
  - intros st. split; [apply with_jar_same | apply with_requests_same].
  - intros a b c [Hc1 Hw1] [Hc2 Hw2]. split.
    + rewrite <- Hc1 at 2. rewrite <- Hc2.
      by destruct (client c) as [? ? ? ? ? ? ? [] ? ?].
    + rewrite <- Hw1 at 2. rewrite <- Hw2. by destruct (world c).
Qed.

Lemma network_only_keeps_login st st' : network_only st st' -> keeps_login st st'.
Proof. intros [Hc _]. unfold keeps_login. by rewrite <- Hc. Qed.

Lemma network_only_files st st' :
  network_only st st' -> files (world st') = files (world st).
Proof. intros [_ Hw]. by rewrite <- Hw. Qed.

Lemma network_only_cache_file st st' :
  network_only st st' -> cache_file (client st') = cache_file (client st).
Proof. intros [Hc _]. by rewrite <- Hc. Qed.

Section Rules.
Context (R : State -> State -> Prop) `{!PreOrder R}.

Lemma preserves_ret {A} (a : A) : preserves R (ret a).
Proof. intros st. reflexivity. Qed.

Lemma preserves_raise {A} e : preserves R (@raise _ A e).
Proof. intros st. reflexivity. Qed.

Lemma preserves_lift {A} (o : outcome A) : preserves R (lift o).
Proof. intros st. reflexivity. Qed.

Lemma preserves_self : preserves R self.
Proof. intros st. reflexivity. Qed.

Lemma preserves_the_world : preserves R the_world.
Proof. intros st. reflexivity. Qed.

Lemma preserves_bind {A B} (m : M A) (k : A -> M B) :
  preserves R m -> (forall a, preserves R (k a)) -> preserves R (bind m k).
Proof.
  intros Hm Hk st. unfold bind.
  specialize (Hm st). destruct (m st) as [[a|e] st']; simpl in *.
  - etransitivity; [exact Hm | apply Hk].
  - exact Hm.
Qed.

Lemma preserves_try_except {A} (m : M A) handler :
  preserves R m -> (forall e, preserves R (handler e)) ->
  preserves R (try_except m handler).
Proof.
  intros Hm Hh st. unfold try_except.
  specialize (Hm st). destruct (m st) as [[a|e] st']; simpl in *.
  - exact Hm.
  - etransitivity; [exact Hm | apply Hh].
Qed.

End Rules.

(** Walks through a computation, one rule per construct. *)
Ltac frame :=
  repeat (intros; cbv beta;
    first [ apply preserves_ret | apply preserves_raise | apply preserves_lift
          | apply preserves_self | apply preserves_the_world
          | apply preserves_bind | apply preserves_try_except
          | solve [eauto with frame]
          | match goal with
            | |- PreOrder _ => typeclasses eauto
            | |- preserves _ (if ?b then _ else _) => destruct b
            | |- preserves _ (match ?x with _ => _ end) => destruct x
            end ]).

(** ** The transport *)

Lemma send_network_only rq : preserves network_only (send rq).
Proof.
  intros st. unfold send. destruct (reply_to rq st); simpl.
  - split; simpl; [by destruct (client st) as [? ? ? ? ? ? ? [] ? ?] | by destruct (world st)].
  - split; simpl; [apply with_jar_same | by destruct (world st)].
Qed.

Lemma send_sent rq st : sent_between st (snd (send rq st)) [outgoing rq st].
Proof. unfold sent_between, send. by destruct (reply_to rq st). Qed.

Lemma send_answer rq st r :
  reply_to rq st = Answer r -> fst (send rq st) = Ok r.
Proof. intros Hr. unfold send. by rewrite Hr. Qed.

Lemma send_failure rq st msg :
  reply_to rq st = Failure msg -> fst (send rq st) = Raise (RequestsError msg).
Proof. intros Hr. unfold send. by rewrite Hr. Qed.

#[local] Hint Resolve send_network_only : frame.

(** ** [_verify_login] *)

Lemma verify_login_network_only : preserves network_only _verify_login.
Proof. unfold _verify_login. frame. Qed.

Lemma verify_login_sent st :
  sent_between st (snd (_verify_login st)) [outgoing verify_request st].
Proof.
  generalize (send_sent verify_request st).
  unfold _verify_login, try_except, bind, ret.
  by destruct (send verify_request st) as [[r|e] st'].
Qed.

(** The probe never raises, and says yes exactly on a 200. *)
Lemma verify_login_result st :
  fst (_verify_login st) =
  Ok (match reply_to verify_request st with
      | Answer r => status_code r =? 200
      | Failure _ => false
      end).
Proof.
  unfold _verify_login, try_except, bind, ret, send.
  by destruct (reply_to verify_request st).
Qed.

(** ** [_fetch_account_number] *)

Lemma fetch_account_number_network_only : preserves network_only _fetch_account_number.
Proof. unfold _fetch_account_number. frame. Qed.

Lemma fetch_account_number_sent st :
  sent_between st (snd (_fetch_account_number st)) [outgoing details_request st].
Proof.
  generalize (send_sent details_request st).
  unfold _fetch_account_number, bind, lift.
  destruct (send details_request st) as [[r|e] st']; simpl; [|done].
  destruct (raise_for_status r); [|done].
  by destruct (json_of r).
Qed.

#[local] Hint Resolve verify_login_network_only fetch_account_number_network_only : frame.

(** ** [_clear_credentials] and [_save_credentials] *)

Lemma clear_credentials_run st : _clear_credentials st = (Ok tt, cleared st).
Proof.
  unfold _clear_credentials, _set_session, bind, self, the_world, update_world,
    update_self, ret, cleared.
  simpl. destruct (files (world st) !! cache_file (client st)) eqn:Hfile; simpl.
  - done.
  - rewrite delete_id by done. by destruct st as [c []].
Qed.

Lemma cleared_keeps_login st : keeps_login st (cleared st).
Proof. done. Qed.

Lemma cleared_no_file st : files (world (cleared st)) !! cache_file (client st) = None.
Proof. apply lookup_delete_eq. Qed.

Lemma cleared_no_cookies st : cookies (session (client (cleared st))) = ∅.
Proof.
  simpl. unfold new_session.
  destruct (proxy_url (client st)); [destruct (str_truthy _)|]; done.
Qed.

Lemma prepared_client st : client (prepared st) = client st.
Proof.
  unfold prepared. destruct (path (client st)); [|done]. by destruct (_ && _).
Qed.

Lemma prepared_files st : files (world (prepared st)) = files (world st).
Proof.
  unfold prepared. destruct (path (client st)); [|done]. by destruct (_ && _).
Qed.

Lemma prepared_requests st : requests (world (prepared st)) = requests (world st).
Proof.
  unfold prepared. destruct (path (client st)); [|done]. by destruct (_ && _).
Qed.

(** [_save_credentials] in one step: the file is written when its directory
    exists, and nothing is written when it does not. *)
Lemma save_credentials_run st :
  _save_credentials st =
  if can_save st then
    (Ok tt,
     with_world
       (with_files (<[cache_file (client st) := credentials_of (client st)]>
                      (files (world (prepared st))))
          (world (prepared st)))
       (prepared st))
  else
    (Raise (if bool_decide (is_Some (files (world st) !! dirname (cache_file (client st))))
            then NotADirectoryError else FileNotFoundError),
     prepared st).
Proof.
  unfold can_save. rewrite <- (prepared_files st).
  unfold _save_credentials, prepared, bind, self, the_world, update_world, ret, raise,
    credentials_of.
  simpl. destruct (path (client st)) as [p|]; simpl.
  - destruct (_ && _); simpl; destruct (is_dir _ _); simpl; try done;
      by destruct (bool_decide _).
  - destruct (is_dir _ _); simpl; [done|]. by destruct (bool_decide _).
Qed.

Lemma save_credentials_result st :
  fst (_save_credentials st) = Ok tt <-> can_save st = true.
Proof.
  rewrite save_credentials_run. destruct (can_save st); simpl; [done|].
  split; [|done]. by destruct (bool_decide _).
Qed.

(** Whether [_save_credentials] returns depends on the directories only,
    not on the cookie jar that is saved. *)
Lemma save_credentials_any_jar st jar :
  fst (_save_credentials
         (with_client (with_session (with_cookies jar (session (client st))) (client st)) st))
  = fst (_save_credentials st).
Proof.
  rewrite !save_credentials_run. unfold can_save, prepared. simpl.
  destruct (path (client st)) as [p|]; simpl.
  - destruct (_ && _); simpl; by destruct (is_dir _ _).
  - by destruct (is_dir _ _).
Qed.

Lemma saved_client st : client (saved st) = client st.
Proof.
  unfold saved. rewrite save_credentials_run.
  destruct (can_save st); simpl; apply prepared_client.
Qed.

Lemma saved_file st :
  fst (_save_credentials st) = Ok tt ->
  files (world (saved st)) !! cache_file (client st) = Some (credentials_of (client st)).
Proof.
  intros Hok. apply save_credentials_result in Hok.
  unfold saved. rewrite save_credentials_run, Hok. simpl. apply lookup_insert_eq.
Qed.

Lemma saved_sent st : requests (world (saved st)) = requests (world st).
Proof.
  unfold saved. rewrite save_credentials_run.
  destruct (can_save st); simpl; apply prepared_requests.
Qed.

(** ** [login] in parts *)

Lemma login_parts st :
  login st =
  (valid <- _verify_login ;;
   if valid then reuse
   else _clear_credentials ;; session_status <- handshake ;; conclude session_status) st.
Proof.
  unfold login, reuse, handshake, conclude, bind, lift, self.
  destruct (_verify_login st) as [[[]|e] sv]; [done| |done].
  destruct (_clear_credentials sv) as [[[]|e] sc]; [|done].
  simpl. destruct (send _ sc) as [[ra|e] s1]; [|done].
  destruct (raise_for_status ra); [|done].
  destruct (send poll_request s1) as [[rp|e] s2]; [|done].
  destruct (raise_for_status rp); [|done].
  destruct (json_of rp) as [poll_data|e]; [|done].
  by destruct (status_message poll_data).
Qed.

Lemma reuse_run st :
  reuse st =
  match _fetch_account_number (mark_logged_in st) with
  | (Ok a, s2) => (Ok true, record_account a s2)
  | (Raise e, s2) => (Raise e, s2)
  end.
Proof.
  unfold reuse, bind, update_self, ret. simpl.
  fold (mark_logged_in st).
  by destruct (_fetch_account_number (mark_logged_in st)) as [[a|e] s2].
Qed.

Lemma conclude_created st :
  conclude (JStr "Session Created") st =
  match _fetch_account_number (mark_logged_in st) with
  | (Ok a, s2) =>
      (match fst (_save_credentials (record_account a s2)) with
       | Ok _ => Ok true
       | Raise e => Raise e
       end, saved (record_account a s2))
  | (Raise e, s2) => (Raise e, s2)
  end.
Proof.
  unfold conclude, bind, update_self, ret. simpl.
  fold (mark_logged_in st).
  destruct (_fetch_account_number (mark_logged_in st)) as [[a|e] s2]; [|done].
  fold (record_account a s2). unfold saved.
  by destruct (_save_credentials (record_account a s2)) as [[[]|e] s3].
Qed.

Lemma eq_str_true v k : eq_str v k = true <-> v = JStr k.
Proof.
  unfold eq_str, is_str. destruct v; try (split; [discriminate|congruence]).
  rewrite String.eqb_eq. split; congruence.
Qed.

Lemma eq_str_false v k : eq_str v k = false <-> v <> JStr k.
Proof.
  rewrite <- eq_str_true. by destruct (eq_str v k).
Qed.

(** The login-rejected error of a textual status reads as the f-string of
    the source with the status in it. *)
Lemma login_rejected_text s :
  match LoginRejectedError (JStr s) with
  | RuntimeError msg =>
      message_text msg = Some (String.append "Login failed with unexpected status: " s)
  | _ => False
  end.
Proof.
  assert (Hnil : forall t : string, String.append t "" = t).
  { induction t as [|c t IH]; [done|].
    change (String c (String.append t "") = String c t). by rewrite IH. }
  unfold LoginRejectedError, message_text, render. by rewrite Hnil.
Qed.

(** The three ways [conclude] can go. *)
Lemma conclude_cases m st :
  conclude m st = (Raise OtpRequiredUnsupported, st) \/
  conclude m st = (Raise (LoginRejectedError m), st) \/
  (m = JStr "Session Created" /\
   eq_str m "Authentication Not Completed" = false).
Proof.
  unfold conclude.
  destruct (eq_str m "Authentication Not Completed") eqn:Hotp; [by left|].
  destruct (eq_str m "Session Created") eqn:Hm; simpl.
  - right. right. by apply eq_str_true in Hm.
  - right. by left.
Qed.

Lemma handshake_network_only : preserves network_only handshake.
Proof. unfold handshake. frame. Qed.

Lemma verify_login_pair st :
  _verify_login st =
  (Ok (match reply_to verify_request st with
       | Answer r => status_code r =? 200
       | Failure _ => false
       end), snd (_verify_login st)).
Proof. rewrite <- verify_login_result. by destruct (_verify_login st). Qed.

Lemma login_after_probe st :
  login st =
  (if match reply_to verify_request st with
      | Answer r => status_code r =? 200
      | Failure _ => false
      end
   then reuse (snd (_verify_login st))
   else (session_status <- handshake ;; conclude session_status)
          (cleared (snd (_verify_login st)))).
Proof.
  rewrite login_parts. unfold bind at 1. rewrite verify_login_pair.
  destruct (match reply_to _ _ with Answer _ => _ | Failure _ => _ end); [done|].
  unfold bind at 1. by rewrite clear_credentials_run.
Qed.

(** What the fetch leaves behind, from the state it starts in. *)
Lemma fetch_account_number_after st o s2 :
  _fetch_account_number st = (o, s2) ->
  logged_in (client s2) = logged_in (client st) /\
  files (world s2) = files (world st) /\
  cache_file (client s2) = cache_file (client st) /\
  sent_between st s2 [outgoing details_request st].
Proof.
  intros Hrun.
  pose proof (fetch_account_number_network_only st) as Hnet.
  pose proof (fetch_account_number_sent st) as Hsent.
  rewrite Hrun in Hnet, Hsent. simpl in *.
  split; [apply (network_only_keeps_login _ _ Hnet)|].
  split; [apply (network_only_files _ _ Hnet)|].
  split; [apply (network_only_cache_file _ _ Hnet)|done].
Qed.

(** ** The requests of a login *)

Lemma sent_between_app a b c l1 l2 :
  sent_between a b l1 -> sent_between b c l2 -> sent_between a c (l1 ++ l2).
Proof. unfold sent_between. intros -> ->. by rewrite app_assoc. Qed.

Lemma sent_between_nil a : sent_between a a [].
Proof. unfold sent_between. by rewrite app_nil_r. Qed.

Lemma network_only_client st st' s :
  network_only st st' -> with_session s (client st') = with_session s (client st).
Proof. intros [Hc _]. rewrite <- Hc. by destruct (client st'). Qed.

(** The handshake begins with the password authentication, and what follows
    goes elsewhere. *)
Lemma handshake_sent st :
  exists rest,
    sent_between st (snd (handshake st))
      (outgoing (authentication_request (client st)) st :: rest) /\
    Forall elsewhere rest.
Proof.
  unfold handshake, bind, self, lift.
  pose proof (send_sent (authentication_request (client st)) st) as Hauth.
  destruct (send (authentication_request (client st)) st) as [[ra|e] s1]; simpl in *;
    [|by exists []].
  destruct (raise_for_status ra); [|by exists []].
  pose proof (send_sent poll_request s1) as Hpoll.
  assert (Hrest : sent_between st (snd (send poll_request s1))
            (outgoing (authentication_request (client st)) st :: [outgoing poll_request s1])).
  { apply (sent_between_app _ _ _ [_] [_] Hauth Hpoll). }
  assert (Hels : Forall elsewhere [outgoing poll_request s1]).
  { by repeat constructor. }
  destruct (send poll_request s1) as [[rp|e] s2]; simpl in *; [|by eexists].
  destruct (raise_for_status rp); [|by eexists].
  destruct (json_of rp); [|by eexists].
  destruct (status_message _); by eexists.
Qed.

Lemma conclude_sent m st :
  exists rest, sent_between st (snd (conclude m st)) rest /\ Forall elsewhere rest.
Proof.
  destruct (conclude_cases m st) as [Hc|[Hc|[-> _]]].
  - rewrite Hc. exists []. split; [apply sent_between_nil|constructor].
  - rewrite Hc. exists []. split; [apply sent_between_nil|constructor].
  - rewrite conclude_created.
    exists [outgoing details_request (mark_logged_in st)].
    split; [|by repeat constructor].
    destruct (_fetch_account_number _) as [[a|e] s2] eqn:Hfetch;
      destruct (fetch_account_number_after _ _ _ Hfetch) as (_ & _ & _ & Hsent); simpl.
    + unfold sent_between. rewrite saved_sent. exact Hsent.
    + exact Hsent.
Qed.

(** ** The claims *)

(** C1: every data accessor ([get_account_total], [get_positions],
    [get_account_holdings], [get_stock_price], [get_stock_details]) called on
    a client whose [logged_in] is false raises the not-logged-in error and
    leaves the whole state as it was: the request log is unchanged, so no
    request was sent, and neither the client nor the files were touched. *)
Theorem accessors_require_login st account ticker :
  logged_in (client st) = false ->
  get_account_total account st = (Raise NotLoggedInError, st) /\
  get_positions account st = (Raise NotLoggedInError, st) /\
  get_account_holdings account st = (Raise NotLoggedInError, st) /\
  get_stock_price ticker st = (Raise NotLoggedInError, st) /\
  get_stock_details ticker st = (Raise NotLoggedInError, st).
Proof.
  intros Hout.
  assert (Hcheck : forall A (func : M A), check_login func st = (Raise NotLoggedInError, st)).
  { intros A func. unfold check_login, bind, self. simpl. by rewrite Hout. }
  unfold get_account_total, get_positions, get_account_holdings, get_stock_price,
    get_stock_details.
  by rewrite !Hcheck.
Qed.

(** C9: [login] returns [True] or raises; it never returns [False]. *)
Theorem login_true_or_raises st :
  (exists st', login st = (Ok true, st')) \/ (exists e st', login st = (Raise e, st')).
Proof.
  rewrite login_after_probe.
  destruct (match reply_to _ _ with Answer _ => _ | Failure _ => _ end).
  - rewrite reuse_run.
    destruct (_fetch_account_number _) as [[a|e] s2]; eauto.
  - unfold bind.
    destruct (handshake _) as [[m|e] sh]; [|eauto].
    destruct (conclude_cases m sh) as [Hc|[Hc|[-> _]]];
      [rewrite Hc; eauto..|].
    rewrite conclude_created.
    destruct (_fetch_account_number _) as [[a|e] s2]; [|eauto].
    destruct (fst (_save_credentials _)) as [[]|e]; eauto.
Qed.

(** C3, as amended: when the verify probe is answered with HTTP 200,
    [login] sets [logged_in] and issues the fetch of the account number; it
    sends these two GET requests to the details endpoint and nothing else
    (no password authentication, no poll); the files are left as they were
    (no credentials are saved); and when the fetch succeeds [login] returns
    [True] with the account number recorded. *)
Theorem session_reuse st r :
  reply_to verify_request st = Answer r ->
  status_code r = 200 ->
  let sv := mark_logged_in (snd (_verify_login st)) in
  let st' := snd (login st) in
  logged_in (client st') = true /\
  sent_between st st' [outgoing verify_request st; outgoing details_request sv] /\
  Forall (fun s => req_method (sent_request s) = GET /\
                   req_url (sent_request s) = details_url)
    [outgoing verify_request st; outgoing details_request sv] /\
  files (world st') = files (world st) /\
  (forall a s2, _fetch_account_number sv = (Ok a, s2) ->
     login st = (Ok true, record_account a s2) /\
     account_number (client st') = a).
Proof.
  intros Hr H200 sv st'. subst st'.
  rewrite login_after_probe, Hr, H200. simpl. rewrite reuse_run. fold sv.
  pose proof (verify_login_network_only st) as Hnet.
  pose proof (verify_login_sent st) as Hsent.
  destruct (_fetch_account_number sv) as [o s2] eqn:Hfetch.
  destruct (fetch_account_number_after _ _ _ Hfetch) as (Hin & Hfiles & _ & Hlog).
  assert (Hsent2 : sent_between st s2 [outgoing verify_request st; outgoing details_request sv]).
  { unfold sent_between in *. rewrite Hlog. simpl. rewrite Hsent. by rewrite <- app_assoc. }
  assert (Hfiles2 : files (world s2) = files (world st)).
  { rewrite Hfiles. simpl. apply (network_only_files _ _ Hnet). }
  assert (Hget : Forall (fun s => req_method (sent_request s) = GET /\
                                   req_url (sent_request s) = details_url)
                   [outgoing verify_request st; outgoing details_request sv]).
  { by repeat constructor. }
  destruct o as [a|e]; simpl; repeat split; try done; congruence.
Qed.

(** C10: [logged_in] is set before the account number is fetched, on the
    session-reuse path and on the fresh-login path alike.  When the fetch
    raises, [login] raises the same exception and ends in the state the
    fetch left, in which [logged_in] is true; on the fresh-login path the
    files are then still as [_clear_credentials] left them, so the
    credential file does not exist. *)
Theorem fetch_failure_leaves_logged_in st e s2 :
  (forall sv,
     _verify_login st = (Ok true, sv) ->
     _fetch_account_number (mark_logged_in sv) = (Raise e, s2) ->
     login st = (Raise e, s2) /\ logged_in (client s2) = true) /\
  (forall sv sh,
     _verify_login st = (Ok false, sv) ->
     handshake (cleared sv) = (Ok (JStr "Session Created"), sh) ->
     _fetch_account_number (mark_logged_in sh) = (Raise e, s2) ->
     login st = (Raise e, s2) /\ logged_in (client s2) = true /\
     files (world s2) = delete (cache_file (client st)) (files (world st)) /\
     files (world s2) !! cache_file (client s2) = None).
Proof.
  split.
  - intros sv Hv Hfetch.
    destruct (fetch_account_number_after _ _ _ Hfetch) as (Hin & _).
    rewrite login_parts. unfold bind at 1. rewrite Hv, reuse_run, Hfetch. done.
  - intros sv sh Hv Hshake Hfetch.
    destruct (fetch_account_number_after _ _ _ Hfetch) as (Hin & Hfiles & Hcache & _).
    pose proof (verify_login_network_only st) as Hnet. rewrite Hv in Hnet. simpl in Hnet.
    pose proof (handshake_network_only (cleared sv)) as Hnet'.
    rewrite Hshake in Hnet'. simpl in Hnet'.
    assert (Hf : files (world s2) = delete (cache_file (client st)) (files (world st))).
    { rewrite Hfiles. transitivity (files (world sh)); [done|].
      rewrite (network_only_files _ _ Hnet'). simpl.
      by rewrite (network_only_cache_file _ _ Hnet), (network_only_files _ _ Hnet). }
    split; [|split; [done|split; [done|]]].
    + rewrite login_parts. unfold bind at 1. rewrite Hv.
      unfold bind at 1. rewrite clear_credentials_run.
      unfold bind at 1. rewrite Hshake, conclude_created, Hfetch. done.
    + assert (Hc : cache_file (client s2) = cache_file (client st)).
      { rewrite Hcache. transitivity (cache_file (client sh)); [done|].
        rewrite (network_only_cache_file _ _ Hnet').
        transitivity (cache_file (client sv)); [done|].
        apply (network_only_cache_file _ _ Hnet). }
      rewrite Hf, Hc. apply lookup_delete_eq.
Qed.

(** C2, as amended: once [login] has parsed the poll response, with status
    message [m], [logged_in] is still what it was before the call, and
    - [m = "Authentication Not Completed"]: [login] raises the
      OTP-unsupported error, [logged_in] unchanged (false stays false);
    - any other [m] that is not ["Session Created"]: [login] raises the
      login-rejected error carrying [m], [logged_in] unchanged;
    - [m = "Session Created"]: [login] sets [logged_in] and fetches the
      account number; when that fetch succeeds, [login] records the number
      and saves the credentials: when [_save_credentials] returns, the
      credential file holds the cookie jar and [login] returns [True], and
      when it raises (the directory of the file is missing), [login] raises
      the same. *)
Theorem poll_status_branches st sv sh m :
  _verify_login st = (Ok false, sv) ->
  handshake (cleared sv) = (Ok m, sh) ->
  logged_in (client sh) = logged_in (client st) /\
  (m = JStr "Authentication Not Completed" ->
     login st = (Raise OtpRequiredUnsupported, sh)) /\
  (m <> JStr "Authentication Not Completed" -> m <> JStr "Session Created" ->
     login st = (Raise (LoginRejectedError m), sh)) /\
  (m = JStr "Session Created" ->
     logged_in (client (snd (login st))) = true /\
     forall a s2,
       _fetch_account_number (mark_logged_in sh) = (Ok a, s2) ->
       account_number (client (snd (login st))) = a /\
       (fst (_save_credentials (record_account a s2)) = Ok tt ->
          login st = (Ok true, saved (record_account a s2)) /\
          files (world (saved (record_account a s2))) !! cache_file (client s2)
            = Some (credentials_of (client s2))) /\
       (forall e, fst (_save_credentials (record_account a s2)) = Raise e ->
          login st = (Raise e, saved (record_account a s2)))).
Proof.
  intros Hv Hshake.
  assert (Hlogin : login st = conclude m sh).
  { rewrite login_parts. unfold bind at 1. rewrite Hv.
    unfold bind at 1. rewrite clear_credentials_run.
    unfold bind at 1. by rewrite Hshake. }
  pose proof (verify_login_network_only st) as Hnet. rewrite Hv in Hnet. simpl in Hnet.
  pose proof (handshake_network_only (cleared sv)) as Hnet'.
  rewrite Hshake in Hnet'. simpl in Hnet'.
  split; [|split; [|split]].
  - rewrite (network_only_keeps_login _ _ Hnet').
    rewrite (cleared_keeps_login sv). apply (network_only_keeps_login _ _ Hnet).
  - intros ->. by rewrite Hlogin.
  - intros Hotp Hcreated. rewrite Hlogin. unfold conclude.
    apply eq_str_false in Hotp, Hcreated. by rewrite Hotp, Hcreated.
  - intros ->. rewrite Hlogin, conclude_created.
    destruct (_fetch_account_number (mark_logged_in sh)) as [o s2] eqn:Hfetch.
    destruct (fetch_account_number_after _ _ _ Hfetch) as (Hin & _).
    split.
    + destruct o; simpl; [by rewrite saved_client|done].
    + intros a s2' [= -> <-]. simpl. split_and!.
      * by rewrite saved_client.
      * intros Hsave. rewrite Hsave. split; [done|].
        by apply (saved_file (record_account a s2)).
      * intros e Hsave. by rewrite Hsave.
Qed.

Lemma new_session_no_cookies url auth : cookies (new_session url auth) = ∅.
Proof. unfold new_session. destruct url; [destruct (str_truthy _)|]; done. Qed.

Lemma new_session_fields url auth :
  new_session url auth =
  {| impersonate := "safari_ios"; timeout := 10;
     proxies :=
       match url with
       | Some u => if String.eqb u "" then ∅ else <["http" := u]> (<["https" := u]> ∅)
       | None => ∅
       end;
     session_proxy_auth :=
       match url with
       | Some u => if String.eqb u "" then None else auth
       | None => None
       end;
     cookies := ∅ |}.
Proof.
  unfold new_session, str_truthy. destruct url as [u|]; [|done].
  destruct (String.eqb u ""); [done|]. by destruct auth.
Qed.

(** C4: when the verify probe is not answered with HTTP 200 (another status,
    or no response at all), the second request of [login] is the password
    authentication: a POST to the authentication endpoint whose JSON body
    carries the user name and the password.  It leaves from the state
    [_clear_credentials] produced: over a new session (impersonation and
    time-out of [_set_session], the proxy of the client for both schemes and
    its proxy authentication when a proxy is configured, none otherwise)
    with an empty cookie jar, and with a file system in which the credential
    file does not exist and every other file is as it was.  No later request
    of the call goes to the authentication endpoint, so the password is
    never sent over the old session or with the old file in place. *)
Theorem clear_before_authentication st :
  (forall r, reply_to verify_request st = Answer r -> status_code r <> 200) ->
  let c := client st in
  let password_post :=
    {| sent_request :=
         {| req_method := POST; req_url := authentication_url;
            req_headers := build_headers "ecaap" false;
            req_json := Some (JDict [("username", JStr (username c));
                                     ("requestBaseInfo", JNull);
                                     ("password", JStr (password c))]);
            req_params := []; req_timeout := None |};
       sent_session :=
         {| impersonate := "safari_ios"; timeout := 10;
            proxies :=
              match proxy_url c with
              | Some u =>
                  if String.eqb u "" then ∅ else <["http" := u]> (<["https" := u]> ∅)
              | None => ∅
              end;
            session_proxy_auth :=
              match proxy_url c with
              | Some u => if String.eqb u "" then None else proxy_auth c
              | None => None
              end;
            cookies := ∅ |};
       sent_files := delete (cache_file c) (files (world st)) |} in
  exists rest,
    sent_between st (snd (login st))
      (outgoing verify_request st :: password_post :: rest) /\
    Forall elsewhere rest /\
    cookies (sent_session password_post) = ∅ /\
    sent_files password_post !! cache_file (client st) = None.
Proof.
  intros Hprobe c post.
  set (password_post :=
    {| sent_request := authentication_request (client st);
       sent_session := new_session (proxy_url (client st)) (proxy_auth (client st));
       sent_files := delete (cache_file (client st)) (files (world st)) |}).
  assert (Hsame : post = password_post).
  { unfold post, password_post, c. by rewrite new_session_fields. }
  rewrite Hsame. clear Hsame post.
  set (sv := snd (_verify_login st)).
  pose proof (verify_login_network_only st) as Hnet. fold sv in Hnet.
  pose proof (verify_login_sent st) as Hsent. fold sv in Hsent.
  assert (Hpost : outgoing (authentication_request (client (cleared sv))) (cleared sv)
                  = password_post).
  { unfold outgoing, password_post. simpl.
    pose proof (network_only_client _ _ (session (client st)) Hnet) as Hc.
    rewrite with_session_same in Hc. rewrite <- Hc.
    rewrite (network_only_files _ _ Hnet). by destruct (client sv). }
  destruct (handshake_sent (cleared sv)) as (rest1 & Hshake & Hels1).
  rewrite Hpost in Hshake.
  assert (Hfresh : login st =
            (session_status <- handshake ;; conclude session_status) (cleared sv)).
  { rewrite login_after_probe.
    destruct (reply_to verify_request st) as [r|msg] eqn:Hr; [|done].
    specialize (Hprobe r eq_refl). by apply Z.eqb_neq in Hprobe as ->. }
  assert (Hlog : exists rest,
            sent_between (cleared sv) (snd (login st)) (password_post :: rest) /\
            Forall elsewhere rest).
  { rewrite Hfresh. unfold bind.
    destruct (handshake (cleared sv)) as [[m|e] sh]; simpl in *; [|by exists rest1].
    destruct (conclude_sent m sh) as (rest2 & Hconc & Hels2).
    exists (rest1 ++ rest2). split; [|by apply Forall_app].
    apply (sent_between_app _ _ _ (_ :: _) _ Hshake Hconc). }
  destruct Hlog as (rest & Hlog & Hels).
  exists rest. split; [|split; [done|split]].
  - apply (sent_between_app st (cleared sv) _ [_] (_ :: _)); [exact Hsent|exact Hlog].
  - apply new_session_no_cookies.
  - apply lookup_delete_eq.
Qed.

(** ** The accessors on a parsed response *)

(** ** [float] *)

(** The conversions at some strings and integers: rounding to the nearest
    binary64 with ties to even, numerals out of range, underscores, and the
    largest integer that converts. *)
Lemma float_conversions :
  float_of_string "123.45" = Some (FNum (Qmake 8687021468732621 70368744177664)) /\
  float_of_string " 1_000.5 " = Some (FNum (Qmake 2001 2)) /\
  float_of_string "1e400" = Some (FInf false) /\
  float_of_string "-1e-400" = Some FNegZero /\
  float_of_string "-Infinity" = Some (FInf true) /\
  float_of_string "nan" = Some FNaN /\
  float_of_string "1__0" = None /\
  float_of_string "0x10" = None /\
  float_of_string "" = None /\
  float_of_int (2 ^ 53 + 1) = Ok (FNum (inject_Z (2 ^ 53))) /\
  float_of_int (2 ^ 53 + 3) = Ok (FNum (inject_Z (2 ^ 53 + 4))) /\
  float_of_int (- (2 ^ 1024 - 2 ^ 970 - 1)) = Ok (FNum (inject_Z (- (2 ^ 1024 - 2 ^ 971)))).
Proof. vm_compute. repeat split. Qed.

Lemma round_half_even_cases n d :
  0 <= n -> 0 < d ->
  let q := n / d in
  (round_half_even n d = q /\ 2 * (n mod d) <= d /\
   (2 * (n mod d) = d -> Z.even q = true)) \/
  (round_half_even n d = q + 1 /\ d <= 2 * (n mod d) /\
   (2 * (n mod d) = d -> Z.even q = false)).
Proof.
  intros Hn Hd q. unfold round_half_even. fold q.
  destruct (Z.compare_spec (2 * (n mod d)) d) as [Heq|Hlt|Hgt].
  - destruct (Z.even q) eqn:Hq; [left|right]; split_and!; auto; lia.
  - left. split_and!; [done|lia|lia].
  - right. split_and!; [done|lia|lia].
Qed.

(** An integer rounds beyond the largest binary64, [2^1024 - 2^971], exactly
    from [2^1024 - 2^970] on: half the gap above it, the tie going up. *)
Lemma binary64_overflow num :
  0 <= num -> binary64 num 1 = None <-> 2 ^ 1024 - 2 ^ 970 <= num.
Proof.
  intros Hnum. unfold binary64.
  destruct (Z.eqb_spec num 0) as [->|Hne].
  { split; [done|]. intros Hle. exfalso. revert Hle. by vm_compute. }
  assert (Hpos : 0 < num) by lia.
  change (Z.log2 1) with 0. rewrite Z.sub_0_r.
  pose proof (Z.log2_nonneg num) as Hg.
  pose proof (Z.log2_spec num Hpos) as [Hlow Hhigh].
  set (g := Z.log2 num) in *.
  destruct (Z.leb_spec 0 g) as [_|?]; [|lia].
  rewrite Z.mul_1_l.
  destruct (Z.leb_spec (2 ^ g) num) as [_|?]; [|lia].
  rewrite Z.max_l by lia.
  destruct (Z.leb_spec 0 (g - 52)) as [Hk|Hk]; simpl.
  2:{ split; [done|]. intros Hle. exfalso.
      assert (2 ^ Z.succ g <= 2 ^ 52) by (apply Z.pow_le_mono_r; lia).
      assert (2 ^ 52 < 2 ^ 1024 - 2 ^ 970) by (by vm_compute).
      lia. }
  set (k := g - 52) in *.
  assert (Hgk : 2 ^ g = 2 ^ 52 * 2 ^ k).
  { rewrite <- Z.pow_add_r by lia. f_equal. lia. }
  assert (Hsk : 2 ^ Z.succ g = 2 ^ 53 * 2 ^ k).
  { rewrite <- Z.pow_add_r by lia. f_equal. lia. }
  rewrite Hgk in Hlow. rewrite Hsk in Hhigh. clear Hgk Hsk.
  assert (HT : 0 < 2 ^ k) by (apply Z.pow_pos_nonneg; lia).
  rewrite Z.mul_1_l.
  pose proof (Z.div_mod num (2 ^ k) ltac:(lia)) as Hdm.
  pose proof (Z.mod_pos_bound num (2 ^ k) HT) as Hmb.
  pose proof (round_half_even_cases num (2 ^ k) Hnum HT) as Hround. simpl in Hround.
  set (T := 2 ^ k) in *. set (q := num / T) in *. set (rm := num mod T) in *.
  set (mant := round_half_even num T) in *.
  assert (Hq : 2 ^ 52 <= q < 2 ^ 53) by nia.
  assert (Hmant : q <= mant <= q + 1) by (destruct Hround as [(-> & _)|(-> & _)]; lia).
  assert (Hiff : 2 ^ 1024 <= mant * T <-> 2 ^ 1024 - 2 ^ 970 <= num).
  { destruct (Z.le_gt_cases k 970) as [Hsmall|Hbig].
    - assert (T <= 2 ^ 970) by (apply Z.pow_le_mono_r; lia).
      assert (mant * T <= 2 ^ 53 * 2 ^ 970) by (apply Z.mul_le_mono_nonneg; lia).
      assert (num < 2 ^ 53 * 2 ^ 970) by nia.
      assert (2 ^ 53 * 2 ^ 970 < 2 ^ 1024 - 2 ^ 970) by (by vm_compute).
      lia.
    - destruct (Z.le_gt_cases 972 k) as [Hlarge|Hmid].
      + assert (2 ^ 972 <= T) by (apply Z.pow_le_mono_r; lia).
        assert (2 ^ 52 * 2 ^ 972 <= mant * T) by (apply Z.mul_le_mono_nonneg; lia).
        assert (2 ^ 52 * 2 ^ 972 <= num) by nia.
        assert (2 ^ 52 * 2 ^ 972 = 2 ^ 1024) by (by vm_compute).
        lia.
      + assert (HTv : T = 2 ^ 971) by (unfold T; f_equal; lia).
        assert (Hhalf : 2 ^ 971 = 2 * 2 ^ 970) by (by vm_compute).
        assert (Htop : 2 ^ 1024 = 2 ^ 53 * 2 ^ 971) by (by vm_compute).
        clearbody T mant q rm. subst T.
        destruct (Z.eq_dec q (2 ^ 53 - 1)) as [->|Hless].
        * assert (Hodd : Z.even (2 ^ 53 - 1) = false) by (by vm_compute).
          destruct Hround as [(-> & Hrm & Hev)|(-> & Hrm & Hev)].
          -- assert (2 * rm <> 2 ^ 971) by (intros Heq; apply Hev in Heq; congruence).
             lia.
          -- lia.
        * assert (mant * 2 ^ 971 <= (2 ^ 53 - 1) * 2 ^ 971)
            by (apply Z.mul_le_mono_nonneg_r; lia).
          assert (2 ^ 971 * q <= 2 ^ 971 * (2 ^ 53 - 2))
            by (apply Z.mul_le_mono_nonneg_l; lia).
          lia. }
  destruct (Z.leb_spec (2 ^ 1024) (mant * T)) as [Hov|Hfit].
  - split; [intros _; by apply Hiff|done].
  - split; [done|]. intros Hle. apply Hiff in Hle. lia.
Qed.

(** [float(n)] raises, and then an [OverflowError], exactly when [n] is at
    least [2^1024 - 2^970] in absolute value. *)
Lemma float_of_int_overflow n :
  float_of_int n = Raise OverflowError <-> 2 ^ 1024 - 2 ^ 970 <= Z.abs n.
Proof.
  rewrite <- (binary64_overflow (Z.abs n)) by apply Z.abs_nonneg.
  unfold float_of_int. by destruct (binary64 (Z.abs n) 1).
Qed.

Lemma float_of_int_raise n e : float_of_int n = Raise e -> e = OverflowError.
Proof. unfold float_of_int. destruct (binary64 _ _); [done|]. by intros [= <-]. Qed.


Lemma float_of_int_ok n f : float_of_int n = Ok f -> Z.abs n < 2 ^ 1024 - 2 ^ 970.
Proof.
  intros Hok. destruct (Z.lt_ge_cases (Z.abs n) (2 ^ 1024 - 2 ^ 970)) as [|Hbig]; [done|].
  apply float_of_int_overflow in Hbig. congruence.
Qed.

Lemma check_login_in {A} (func : M A) st :
  logged_in (client st) = true -> check_login func st = func st.
Proof. intros Hin. unfold check_login, bind, self. simpl. by rewrite Hin. Qed.


Lemma get_stock_price_run st ticker r j :
  logged_in (client st) = true ->
  reply_to (stock_details_request ticker) st = Answer r ->
  ok r = true ->
  body r = Some j ->
  fst (get_stock_price ticker st) = stock_price_of j.
Proof.
  intros Hin Hr Hok Hbody. unfold get_stock_price, get_stock_details.
  rewrite !check_login_in by done.
  unfold bind at 1. rewrite check_login_in by done.
  unfold bind, lift, send, raise_for_status, json_of.
  rewrite Hr. simpl. by rewrite Hok, Hbody.
Qed.



(** What holds of [get_stock_price]: the price ["123.45"] is returned as the
    float 123.45, and a missing [lastPrice] or a string that is no number
    raises the parse error. *)
Lemma stock_price_examples st ticker r :
  logged_in (client st) = true ->
  reply_to (stock_details_request ticker) st = Answer r ->
  ok r = true ->
  (body r = Some (JDict [("securityDetails", JDict [("lastPrice", JStr "123.45")])]) ->
     fst (get_stock_price ticker st)
       = Ok (FNum (Qmake 8687021468732621 70368744177664))) /\
  (forall d, body r = Some (JDict [("securityDetails", JDict d)]) ->
     assoc "lastPrice" d = None ->
     fst (get_stock_price ticker st) = Raise StockPriceParseError) /\
  (forall s, body r = Some (JDict [("securityDetails", JDict [("lastPrice", JStr s)])]) ->
     float_of_string s = None ->
     fst (get_stock_price ticker st) = Raise StockPriceParseError).
Proof.
  intros Hin Hr Hok. repeat split.
  - intros Hbody. by rewrite (get_stock_price_run _ _ _ _ Hin Hr Hok Hbody).
  - intros d Hbody Hmissing.
    rewrite (get_stock_price_run _ _ _ _ Hin Hr Hok Hbody).
    unfold stock_price_of. simpl. by rewrite Hmissing.
  - intros s Hbody Hnan.
    rewrite (get_stock_price_run _ _ _ _ Hin Hr Hok Hbody).
    unfold stock_price_of. simpl. by rewrite Hnan.
Qed.

(** ** The credential file *)

Section RoundTrip.
Context `{!PickleLossless}.

Lemma load_saved st c' :
  fst (_save_credentials st) = Ok tt ->
  cache_file c' = cache_file (client st) ->
  _load_credentials {| client := c'; world := world (saved st) |} =
  (Ok tt,
   {| client := with_session
                  (with_cookies (cookies (session (client st)) ∪ cookies (session c'))
                     (session c')) c';
      world := world (saved st) |}).
Proof.
  intros Hsave Hfile. unfold _load_credentials, bind, self, the_world. simpl.
  rewrite Hfile, saved_file by done. unfold credentials_of.
  rewrite pickle_load_dump, lookup_singleton_eq. done.
Qed.

(** C8: whatever the cookie jar of a client holds, after [_save_credentials]
    has returned (the file was written),
    a client with the same file name and directory and an empty jar that
    runs [_load_credentials] holds the very same jar: the same cookies
    under the same domains, paths and names, each with all its attributes;
    so does a client newly built by [__init__]; and every request either
    of them then sends carries that jar. *)
Theorem save_then_load st c' :
  fst (_save_credentials st) = Ok tt ->
  filename c' = filename (client st) ->
  path c' = path (client st) ->
  cookies (session c') = ∅ ->
  let jar := cookies (session (client st)) in
  let loaded := snd (_load_credentials {| client := c'; world := world (saved st) |}) in
  cookies (session (client loaded)) = jar /\
  (forall rq, cookies (sent_session (outgoing rq loaded)) = jar) /\
  (forall user pass proxy auth dbg,
     cookies (session (client
       (init user pass (filename (client st)) (path (client st)) proxy auth dbg
          (world (saved st))))) = jar).
Proof.
  intros Hsave Hname Hpath Hempty jar loaded.
  assert (Hloaded : cookies (session (client loaded)) = jar).
  { subst loaded. rewrite load_saved.
    - simpl. rewrite Hempty. apply (right_id_L ∅ (∪)).
    - done.
    - unfold cache_file. by rewrite Hname, Hpath. }
  split; [done|split; [done|]].
  intros user pass proxy auth dbg. unfold init.
  rewrite load_saved by done.
  simpl. rewrite new_session_no_cookies. apply (right_id_L ∅ (∪)).
Qed.

End RoundTrip.

(** ** Further properties of the session manager *)


Lemma with_cookies_same s : with_cookies (cookies s) s = s.
Proof. by destruct s. Qed.

(** When the ["cookies"] entry is an iterable of key/value pairs,
    [_load_credentials] stores the pairs in the jar one after the other, a
    later pair for a domain replacing an earlier one, whether or not the
    iterable then goes on with something that is no pair. *)
Lemma load_credentials_pairs st content d items :
  files (world st) !! cache_file (client st) = Some content ->
  pickle_load content = Some (PDict d) ->
  d !! "cookies" = Some (PPairs items) ->
  cookies (session (client (snd (_load_credentials st)))) =
  fold_left (fun jar item => <[fst item := snd item]> jar) items
    (cookies (session (client st))).
Proof.
  intros Hfile Hload Hcookies.
  unfold _load_credentials, bind, self, the_world. simpl.
  by rewrite Hfile, Hload, Hcookies.
Qed.

(** [_load_credentials] never raises and touches neither the files nor the
    request log nor anything of the client but the cookie jar.  When the
    file is missing, does not unpickle, holds something that is no dict,
    holds a dict without ["cookies"], or a ["cookies"] entry of which
    [update] stores nothing (a value that is not iterable, or an iterable
    that does not begin with a key/value pair), the whole state is as it
    was.  When the entry is an iterable that begins with key/value pairs,
    these are stored in the jar, in their order, although [update] may then
    raise. *)
Theorem load_credentials_tolerant st :
  let st' := snd (_load_credentials st) in
  let file := files (world st) !! cache_file (client st) in
  fst (_load_credentials st) = Ok tt /\
  world st' = world st /\
  with_session (with_cookies (cookies (session (client st))) (session (client st')))
    (client st') = client st /\
  (file = None -> st' = st) /\
  (forall content, file = Some content -> pickle_load content = None -> st' = st) /\
  (forall content, file = Some content -> pickle_load content = Some PNotDict ->
     st' = st) /\
  (forall content d, file = Some content -> pickle_load content = Some (PDict d) ->
     d !! "cookies" = None \/ d !! "cookies" = Some POther \/
     d !! "cookies" = Some (PPairs []) -> st' = st) /\
  (forall content d items, file = Some content ->
     pickle_load content = Some (PDict d) ->
     d !! "cookies" = Some (PPairs items) ->
     cookies (session (client st')) =
     fold_left (fun jar item => <[fst item := snd item]> jar) items
       (cookies (session (client st)))).
Proof.
  intros st' file. subst st' file.
  generalize (load_credentials_pairs st).
  unfold _load_credentials, bind, self, the_world. simpl.
  destruct (files (world st) !! cache_file (client st)) as [content|] eqn:Hfile;
    [|by destruct st; intros Hpairs; split_and!; auto using with_jar_same].
  destruct (pickle_load content) as [[d|]|] eqn:Hload;
    [|by destruct st; intros Hpairs; split_and!; auto using with_jar_same..].
  destruct (d !! "cookies") as [[loaded|items|]|] eqn:Hcookies; simpl.
  - intros Hpairs. split_and!; try done.
    + by destruct (client st) as [? ? ? ? ? ? ? [] ? ?].
    + intros content' [= <-]. by rewrite Hload.
    + intros content' [= <-]. by rewrite Hload.
    + intros content' d' [= <-]. rewrite Hload. intros [= <-].
      rewrite Hcookies. by intros [|[|]].
  - intros Hpairs. split_and!; try done.
    + by destruct (client st) as [? ? ? ? ? ? ? [] ? ?].
    + intros content' [= <-]. by rewrite Hload.
    + intros content' [= <-]. by rewrite Hload.
    + intros content' d' [= <-]. rewrite Hload. intros [= <-].
      rewrite Hcookies. intros [|[|[= ->]]]; try done. simpl.
      rewrite with_cookies_same, with_session_same. by destruct st.
  - destruct st; intros Hpairs; split_and!; auto using with_jar_same.
  - unfold update_self. simpl.
    rewrite (left_id_L ∅ (∪)), with_cookies_same, with_session_same.
    destruct st; intros Hpairs; split_and!; auto using with_jar_same.
Qed.

(** When the file holds a dict with a cookie mapping, [_load_credentials]
    merges it into the jar domain by domain: a domain of the file replaces
    the jar's entry for that domain as a whole, and the other domains of the
    jar stay. *)
Theorem load_credentials_merge st content d loaded :
  files (world st) !! cache_file (client st) = Some content ->
  pickle_load content = Some (PDict d) ->
  d !! "cookies" = Some (PCookies loaded) ->
  forall domain,
    cookies (session (client (snd (_load_credentials st)))) !! domain =
    match loaded !! domain with
    | Some paths => Some paths
    | None => cookies (session (client st)) !! domain
    end.
Proof.
  intros Hfile Hload Hcookies domain.
  unfold _load_credentials, bind, self, the_world. simpl.
  rewrite Hfile, Hload, Hcookies. simpl.
  rewrite lookup_union.
  destruct (loaded !! domain), (cookies (session (client st)) !! domain); done.
Qed.

(** [_clear_credentials] removes the credential file and nothing else from
    the disk, sends nothing, and keeps [logged_in] and [account_number];
    clearing twice is clearing once, and a [_load_credentials] after it
    finds nothing: the jar stays empty. *)
Theorem clear_credentials_settles st :
  let sc := snd (_clear_credentials st) in
  fst (_clear_credentials st) = Ok tt /\
  logged_in (client sc) = logged_in (client st) /\
  account_number (client sc) = account_number (client st) /\
  requests (world sc) = requests (world st) /\
  (forall f, f <> cache_file (client st) ->
     files (world sc) !! f = files (world st) !! f) /\
  cookies (session (client sc)) = ∅ /\
  _clear_credentials sc = (Ok tt, sc) /\
  _load_credentials sc = (Ok tt, sc).
Proof.
  intros sc. subst sc. rewrite !clear_credentials_run. simpl.
  repeat split.
  - intros f Hf. by apply lookup_delete_ne.
  - apply new_session_no_cookies.
  - f_equal. unfold cleared. simpl.
    replace (cache_file (with_session _ (client st))) with (cache_file (client st)) by done.
    by rewrite delete_delete_eq.
  - unfold _load_credentials, bind, self, the_world. simpl.
    replace (cache_file (with_session _ (client st))) with (cache_file (client st)) by done.
    by rewrite lookup_delete_eq.
Qed.

Lemma is_dir_dirs (w w' : World) d : dirs w' = dirs w -> is_dir w' d = is_dir w d.
Proof. intros Hd. unfold is_dir. by rewrite Hd. Qed.

Lemma saved_dirs st : dirs (world (saved st)) = dirs (world (prepared st)).
Proof. unfold saved. rewrite save_credentials_run. by destruct (can_save st). Qed.


Lemma strip_slashes_made p : strip_slashes p ∈ makedirs p.
Proof. unfold makedirs. rewrite list_to_set_cons. set_solver. Qed.

Lemma saved_path_exists st p :
  path (client st) = Some p -> p <> "" -> path_exists (world (saved st)) p = true.
Proof.
  intros Hpath Hp.
  assert (Hprep : path_exists (world (prepared st)) p = true).
  { unfold prepared. rewrite Hpath. simpl.
    destruct (String.eqb p "") eqn:Hempty; [by apply String.eqb_eq in Hempty|]. simpl.
    destruct (path_exists (world st) p) eqn:Hex; simpl; [done|].
    unfold path_exists, is_dir. simpl.
    assert (Hin : strip_slashes p ∈ makedirs p ∪ dirs (world st)).
    { apply elem_of_union_l, strip_slashes_made. }
    rewrite (bool_decide_eq_true_2 _ Hin). by rewrite !orb_true_r. }
  unfold path_exists in *. rewrite (is_dir_dirs _ _ _ (saved_dirs st)).
  apply orb_true_iff in Hprep as [->|Hfile]; [done|].
  apply orb_true_iff. right. apply bool_decide_eq_true.
  apply bool_decide_eq_true in Hfile.
  unfold saved. rewrite save_credentials_run.
  destruct (can_save st); simpl; [|done].
  destruct (decide (cache_file (client st) = p)) as [->|Hne].
  - rewrite lookup_insert_eq. eauto.
  - by rewrite lookup_insert_ne.
Qed.


Lemma prepared_saved st : prepared (saved st) = saved st.
Proof.
  unfold prepared at 1. rewrite saved_client.
  destruct (path (client st)) as [p|] eqn:Hpath; [|done].
  destruct (str_truthy (Some p)) eqn:Hp; [|done]. simpl.
  assert (Hex : path_exists (world (saved st)) p = true).
  { apply saved_path_exists; [done|]. intros ->. done. }
  by rewrite Hex.
Qed.

(** Saving twice is saving once, and [_clear_credentials] undoes a save: the
    files are then as if the credential file had only been deleted. *)
Theorem save_credentials_compose st :
  saved (saved st) = saved st /\
  files (world (snd (_clear_credentials (saved st))))
    = delete (cache_file (client st)) (files (world st)).
Proof.
  split.
  - assert (Hcan : can_save (saved st) = can_save st).
    { unfold can_save at 1. rewrite prepared_saved, saved_client.
      unfold can_save. apply is_dir_dirs, saved_dirs. }
    unfold saved at 1. rewrite save_credentials_run, Hcan, prepared_saved, saved_client.
    unfold saved. rewrite save_credentials_run.
    destruct (can_save st); simpl; [|done].
    unfold with_world, with_files. simpl. by rewrite insert_insert_eq.
  - rewrite clear_credentials_run. simpl. rewrite saved_client.
    unfold saved. rewrite save_credentials_run.
    destruct (can_save st); simpl; rewrite ?delete_insert_eq; by rewrite prepared_files.
Qed.

(** [_set_session] always installs a session with an empty cookie jar, the
    Safari-iOS profile and a ten-second time-out.  A proxy URL that is unset
    or empty gives no proxy at all, and [proxy_auth] is then dropped; a
    non-empty URL is used for both http and https, with [proxy_auth] as
    given. *)
Theorem set_session_proxy url auth st :
  let s := session (client (snd (_set_session url auth st))) in
  cookies s = ∅ /\ impersonate s = "safari_ios" /\ timeout s = 10 /\
  (str_truthy url = false -> proxies s = ∅ /\ session_proxy_auth s = None) /\
  (forall u, url = Some u -> u <> "" ->
     proxies s !! "http" = Some u /\ proxies s !! "https" = Some u /\
     session_proxy_auth s = auth).
Proof.
  simpl. unfold new_session.
  destruct url as [u|]; simpl; [|by split_and!].
  destruct (String.eqb u "") eqn:Hu; simpl.
  - apply String.eqb_eq in Hu as ->. split_and!; try done.
    by intros u [= <-].
  - split_and!; try done.
    intros u' [= <-] _. split_and!; [done|done|by destruct auth].
Qed.

Lemma check_login_out {A} (func : M A) st :
  logged_in (client st) = false -> check_login func st = (Raise NotLoggedInError, st).
Proof. intros Hout. unfold check_login, bind, self. simpl. by rewrite Hout. Qed.

Lemma load_credentials_login st :
  logged_in (client (snd (_load_credentials st))) = logged_in (client st) /\
  account_number (client (snd (_load_credentials st))) = account_number (client st) /\
  world (snd (_load_credentials st)) = world st.
Proof.
  unfold _load_credentials, bind, self, the_world. simpl.
  destruct (files (world st) !! cache_file (client st)) as [content|]; [|done].
  destruct (pickle_load content) as [[d|]|]; [|done..].
  by destruct (default _ (d !! "cookies")).
Qed.

(** A client as [__init__] builds it is logged out and has no account
    number, whatever the credential file holds; building it sends nothing
    and changes no file; and every accessor called on it before [login]
    raises the not-logged-in error. *)
Theorem init_logged_out user pass file dir proxy auth dbg w account ticker :
  let st := init user pass file dir proxy auth dbg w in
  logged_in (client st) = false /\
  account_number (client st) = JNull /\
  world st = w /\
  get_account_total account st = (Raise NotLoggedInError, st) /\
  get_positions account st = (Raise NotLoggedInError, st) /\
  get_account_holdings account st = (Raise NotLoggedInError, st) /\
  get_stock_price ticker st = (Raise NotLoggedInError, st) /\
  get_stock_details ticker st = (Raise NotLoggedInError, st).
Proof.
  intros st.
  assert (Hout : logged_in (client st) = false).
  { subst st. unfold init. by rewrite (proj1 (load_credentials_login _)). }
  split; [done|].
  split; [subst st; unfold init; by rewrite (proj1 (proj2 (load_credentials_login _)))|].
  split; [subst st; unfold init; by rewrite (proj2 (proj2 (load_credentials_login _)))|].
  unfold get_account_total, get_positions, get_account_holdings, get_stock_price,
    get_stock_details.
  by rewrite !check_login_out.
Qed.

(** ** Further properties of [login] *)

Lemma network_only_account_number st st' :
  network_only st st' -> account_number (client st') = account_number (client st).
Proof. intros [Hc _]. by rewrite <- Hc. Qed.

Lemma conclude_login m st o st' :
  conclude m st = (o, st') ->
  (logged_in (client st) = true -> logged_in (client st') = true) /\
  (forall b, o = Ok b ->
     logged_in (client st') = true /\ m = JStr "Session Created" /\
     exists a s2,
       _fetch_account_number (mark_logged_in st) = (Ok a, s2) /\
       fst (_save_credentials (record_account a s2)) = Ok tt /\
       st' = saved (record_account a s2)).
Proof.
  intros Hrun.
  destruct (conclude_cases m st) as [Hc|[Hc|[-> _]]].
  - rewrite Hc in Hrun. injection Hrun as <- <-. split; [done|]. by intros b.
  - rewrite Hc in Hrun. injection Hrun as <- <-. split; [done|]. by intros b.
  - rewrite conclude_created in Hrun.
    destruct (_fetch_account_number (mark_logged_in st)) as [[a|e] s2] eqn:Hfetch;
      destruct (fetch_account_number_after _ _ _ Hfetch) as (Hin & _);
      injection Hrun as <- <-.
    + rewrite saved_client. simpl. split; [done|]. intros b Hb. split_and!; [done..|].
      exists a, s2. split_and!; [done| |done].
      by destruct (fst (_save_credentials (record_account a s2))) as [[]|e].
    + split; [done|]. by intros b.
Qed.

Lemma reuse_login st o st' :
  reuse st = (o, st') ->
  logged_in (client st') = true /\
  (forall b, o = Ok b ->
     exists a s2,
       _fetch_account_number (mark_logged_in st) = (Ok a, s2) /\
       st' = record_account a s2).
Proof.
  rewrite reuse_run. intros Hrun.
  destruct (_fetch_account_number (mark_logged_in st)) as [[a|e] s2] eqn:Hfetch;
    destruct (fetch_account_number_after _ _ _ Hfetch) as (Hin & _);
    injection Hrun as <- <-; simpl.
  - split; [done|]. intros b _. eauto.
  - split; [done|]. by intros b.
Qed.


Lemma login_fresh_eq st sv :
  _verify_login st = (Ok false, sv) ->
  login st = (session_status <- handshake ;; conclude session_status) (cleared sv).
Proof.
  intros Hv. rewrite login_parts. unfold bind at 1. rewrite Hv.
  unfold bind at 1. by rewrite clear_credentials_run.
Qed.

Lemma login_reuse_eq st sv :
  _verify_login st = (Ok true, sv) -> login st = reuse sv.
Proof. intros Hv. rewrite login_parts. unfold bind at 1. by rewrite Hv. Qed.

Lemma verify_login_cases st :
  (exists sv, _verify_login st = (Ok true, sv)) \/
  (exists sv, _verify_login st = (Ok false, sv)).
Proof.
  rewrite verify_login_pair.
  destruct (match reply_to _ _ with Answer _ => _ | Failure _ => _ end); eauto.
Qed.

(** No call of [login] ever resets [logged_in]: on a client that is logged
    in, [logged_in] is still true after [login], whether it returns or
    raises, even though a failed fresh login has thrown the old session and
    the credential file away. *)
Theorem login_never_logs_out st :
  logged_in (client st) = true ->
  logged_in (client (snd (login st))) = true.
Proof.
  intros Hin.
  destruct (verify_login_cases st) as [[sv Hv]|[sv Hv]].
  - rewrite (login_reuse_eq _ _ Hv).
    destruct (reuse sv) as [o st'] eqn:Hrun. by apply (reuse_login _ _ _ Hrun).
  - rewrite (login_fresh_eq _ _ Hv).
    pose proof (verify_login_network_only st) as Hnet. rewrite Hv in Hnet. simpl in Hnet.
    assert (Hsv : logged_in (client (cleared sv)) = true).
    { rewrite (cleared_keeps_login sv), (network_only_keeps_login _ _ Hnet). done. }
    unfold bind.
    pose proof (handshake_network_only (cleared sv)) as Hnet'.
    destruct (handshake (cleared sv)) as [[m|e] sh]; simpl in *.
    + destruct (conclude m sh) as [o st'] eqn:Hrun.
      apply (conclude_login _ _ _ _ Hrun).
      by rewrite (network_only_keeps_login _ _ Hnet').
    + by rewrite (network_only_keeps_login _ _ Hnet').
Qed.


(** When the handshake of a fresh login raises (the password or the poll is
    refused, the poll is no JSON object, ...), [login] raises the same
    exception; [logged_in] and [account_number] are what they were, and the
    credential file is gone all the same. *)
Theorem failed_handshake st sv e sh :
  _verify_login st = (Ok false, sv) ->
  handshake (cleared sv) = (Raise e, sh) ->
  login st = (Raise e, sh) /\
  logged_in (client sh) = logged_in (client st) /\
  account_number (client sh) = account_number (client st) /\
  files (world sh) = delete (cache_file (client st)) (files (world st)).
Proof.
  intros Hv Hshake.
  pose proof (verify_login_network_only st) as Hnet. rewrite Hv in Hnet. simpl in Hnet.
  pose proof (handshake_network_only (cleared sv)) as Hnet'.
  rewrite Hshake in Hnet'. simpl in Hnet'.
  split_and!.
  - rewrite (login_fresh_eq _ _ Hv). unfold bind. by rewrite Hshake.
  - rewrite (network_only_keeps_login _ _ Hnet'), (cleared_keeps_login sv).
    apply (network_only_keeps_login _ _ Hnet).
  - rewrite (network_only_account_number _ _ Hnet').
    transitivity (account_number (client sv)); [done|].
    apply (network_only_account_number _ _ Hnet).
  - rewrite (network_only_files _ _ Hnet'). simpl.
    by rewrite (network_only_cache_file _ _ Hnet), (network_only_files _ _ Hnet).
Qed.

Lemma authentication_request_after st :
  authentication_request (client (cleared (snd (_verify_login st))))
    = authentication_request (client st).
Proof.
  destruct (verify_login_network_only st) as [Hc _].
  pose proof (f_equal username Hc) as Hu. pose proof (f_equal password Hc) as Hp.
  simpl in Hu, Hp. unfold authentication_request. simpl. by rewrite Hu, Hp.
Qed.

Lemma verify_login_false st :
  (forall r, reply_to verify_request st = Answer r -> status_code r <> 200) ->
  _verify_login st = (Ok false, snd (_verify_login st)).
Proof.
  intros Hprobe. rewrite verify_login_pair at 1.
  destruct (reply_to verify_request st) as [r|msg] eqn:Hr; [|done].
  specialize (Hprobe r eq_refl). by apply Z.eqb_neq in Hprobe as ->.
Qed.

Lemma handshake_steps st :
  handshake st =
  match send (authentication_request (client st)) st with
  | (Ok ra, s1) =>
      match raise_for_status ra with
      | Ok _ =>
          match send poll_request s1 with
          | (Ok rp, s2) =>
              match raise_for_status rp with
              | Ok _ => (and_then (json_of rp) status_message, s2)
              | Raise e => (Raise e, s2)
              end
          | (Raise e, s2) => (Raise e, s2)
          end
      | Raise e => (Raise e, s1)
      end
  | (Raise e, s1) => (Raise e, s1)
  end.
Proof.
  unfold handshake, bind, self, lift.
  destruct (send _ st) as [[ra|e] s1]; [|done].
  destruct (raise_for_status ra); [|done].
  destruct (send poll_request s1) as [[rp|e] s2]; [|done].
  destruct (raise_for_status rp); [|done].
  by destruct (json_of rp).
Qed.

Lemma send_pair rq st : send rq st = (fst (send rq st), snd (send rq st)).
Proof. by destruct (send rq st). Qed.

(** When the probe fails and the password request is answered with a
    failure status, [login] raises the transport error of that status after
    exactly two requests, the probe and the password request: the poll is
    never sent. *)
Theorem rejected_password st ra :
  (forall r, reply_to verify_request st = Answer r -> status_code r <> 200) ->
  let sc := cleared (snd (_verify_login st)) in
  reply_to (authentication_request (client st)) sc = Answer ra ->
  ok ra = false ->
  fst (login st) = Raise (HTTPError (status_code ra)) /\
  sent_between st (snd (login st))
    [outgoing verify_request st; outgoing (authentication_request (client st)) sc].
Proof.
  intros Hprobe sc Hreply Hok.
  rewrite (login_fresh_eq _ _ (verify_login_false _ Hprobe)). fold sc.
  unfold bind. rewrite handshake_steps.
  replace (authentication_request (client sc)) with (authentication_request (client st))
    by (symmetry; apply authentication_request_after).
  rewrite send_pair, (send_answer _ _ _ Hreply).
  unfold raise_for_status. rewrite Hok. simpl.
  split; [done|].
  apply (sent_between_app st sc _ [_] [_]); [apply verify_login_sent|apply send_sent].
Qed.

(** The status of a poll body is read with defaults at every level: when the
    poll is answered with a JSON object, [login] takes the message to be the
    empty string if ["responseBaseInfo"] is missing, and so raises the
    login-rejected error with an empty status; if ["responseBaseInfo"] is
    [null] it raises a bare [AttributeError]. *)
Theorem poll_without_status st ra rp d :
  (forall r, reply_to verify_request st = Answer r -> status_code r <> 200) ->
  let sc := cleared (snd (_verify_login st)) in
  let s1 := snd (send (authentication_request (client st)) sc) in
  reply_to (authentication_request (client st)) sc = Answer ra ->
  ok ra = true ->
  reply_to poll_request s1 = Answer rp ->
  ok rp = true ->
  body rp = Some (JDict d) ->
  (assoc "responseBaseInfo" d = None ->
     fst (login st) = Raise (LoginRejectedError (JStr ""))) /\
  (assoc "responseBaseInfo" d = Some JNull ->
     fst (login st) = Raise AttributeError).
Proof.
  intros Hprobe sc s1 Hra Hoka Hrp Hokp Hbody.
  rewrite (login_fresh_eq _ _ (verify_login_false _ Hprobe)). fold sc.
  unfold bind. rewrite handshake_steps.
  replace (authentication_request (client sc)) with (authentication_request (client st))
    by (symmetry; apply authentication_request_after).
  rewrite send_pair, (send_answer _ _ _ Hra). fold s1.
  unfold raise_for_status. rewrite Hoka.
  rewrite send_pair, (send_answer _ _ _ Hrp), Hokp.
  unfold json_of. rewrite Hbody. unfold status_message. simpl.
  split; intros ->; done.
Qed.

(** ** Further properties of the parsers *)

Lemma and_then_ok {A B} (o : outcome A) (k : A -> outcome B) b :
  and_then o k = Ok b -> exists a, o = Ok a /\ k a = Ok b.
Proof. destruct o as [a|e]; [eauto|done]. Qed.

Lemma and_then_raise {A B} (o : outcome A) (k : A -> outcome B) e :
  and_then o k = Raise e -> o = Raise e \/ exists a, o = Ok a /\ k a = Raise e.
Proof. destruct o as [a|e']; simpl; [eauto|]. intros [= ->]. by left. Qed.

Lemma getitem_ok v k x :
  getitem v k = Ok x -> exists d, v = JDict d /\ assoc k d = Some x.
Proof.
  destruct v as [| | | | | |d]; try done. simpl.
  destruct (assoc k d) as [y|] eqn:Hk; [|done]. intros [= ->]. eauto.
Qed.

Lemma getitem_raise v k e :
  getitem v k = Raise e -> e = KeyError (KStr k) \/ e = TypeError.
Proof.
  destruct v as [| | | | | |d]; simpl; try (intros [= <-]; by right).
  destruct (assoc k d); [done|]. intros [= <-]. by left.
Qed.

Lemma getitem0_raise v e :
  getitem0 v = Raise e -> e = KeyError (KInt 0) \/ e = IndexError \/ e = TypeError.
Proof.
  destruct v as [| | | |s|l|d]; simpl; try (intros [= <-]; auto).
  - destruct s; [|done]. intros [= <-]. auto.
  - destruct l; [|done]. intros [= <-]. auto.
Qed.

Lemma float_of_bool (b : bool) :
  float_of_int (if b then 1 else 0) = Ok (FNum (inject_Z (if b then 1 else 0))).
Proof. by destruct b. Qed.

Lemma py_float_raise v e :
  py_float v = Raise e -> e = ValueError \/ e = TypeError \/ e = OverflowError.
Proof.
  destruct v as [|b|n| |s| |]; simpl; try done; try (intros [= <-]; auto).
  - by rewrite float_of_bool.
  - intros ->%float_of_int_raise. auto.
  - destruct (float_of_string s); [done|]. intros [= <-]. auto.
Qed.

(** What [float] accepts, kind by kind. *)
Lemma py_float_ok v f :
  py_float v = Ok f <->
  match v with
  | JStr s => float_of_string s = Some f
  | JInt n => float_of_int n = Ok f
  | JFloat x => x = f
  | JBool b => f = FNum (inject_Z (if b then 1 else 0))
  | JNull | JList _ | JDict _ => False
  end.
Proof.
  destruct v as [|b|n|x|s|l|d]; simpl; try done.
  - rewrite float_of_bool. split; [by intros [= <-]|by intros ->].
  - split; [by intros [= <-]|by intros ->].
  - destruct (float_of_string s) as [g|]; split; try done; by intros [= <-].
Qed.

(** [_fetch_account_number] finds an account number exactly when the details
    are an object with [user.customer.accounts] a non-empty list whose first
    element is an object with an ["accountNumber"]; the value found there is
    returned as it is. *)
Theorem account_number_of_ok data a :
  account_number_of data = Ok a <->
  exists top user customer first rest,
    data = JDict top /\
    assoc "user" top = Some (JDict user) /\
    assoc "customer" user = Some (JDict customer) /\
    assoc "accounts" customer = Some (JList (JDict first :: rest)) /\
    assoc "accountNumber" first = Some a.
Proof.
  unfold account_number_of. split.
  - intros Hrun.
    destruct (let? user := getitem data "user" in _) as [x|e] eqn:Hbody; simpl in Hrun;
      [|by destruct e].
    injection Hrun as ->.
    apply and_then_ok in Hbody as (u & Hu & Hbody).
    apply and_then_ok in Hbody as (c & Hc & Hbody).
    apply and_then_ok in Hbody as (accounts & Ha & Hbody).
    apply and_then_ok in Hbody as (first & Hf & Hn).
    apply getitem_ok in Hu as (top & -> & Hu).
    apply getitem_ok in Hc as (user & -> & Hc).
    apply getitem_ok in Ha as (customer & -> & Ha).
    apply getitem_ok in Hn as (fields & -> & Hn).
    destruct accounts as [| | | |s|l|]; try done.
    + by destruct s.
    + destruct l as [|x rest]; [done|]. injection Hf as ->.
      exists top, user, customer, fields, rest. done.
  - intros (top & user & customer & first & rest & -> & Hu & Hc & Ha & Hn).
    simpl. rewrite Hu. simpl. rewrite Hc. simpl. rewrite Ha. simpl. by rewrite Hn.
Qed.

(** [get_stock_price] has a price exactly when the stock details are an
    object whose ["securityDetails"] is an object with a ["lastPrice"] of one
    of four kinds: a string that [float] reads as a numeral, an infinity or
    NaN (the price is what it reads); an integer below [2^1024 - 2^970] in
    absolute value, which does not round beyond the largest float (the price
    is the float nearest to it); a float (the price is that float); or a
    boolean (1.0 or 0.0). *)
Theorem stock_price_of_ok j f :
  stock_price_of j = Ok f <->
  exists top details price,
    j = JDict top /\
    assoc "securityDetails" top = Some (JDict details) /\
    assoc "lastPrice" details = Some price /\
    match price with
    | JStr s => float_of_string s = Some f
    | JInt n => Z.abs n < 2 ^ 1024 - 2 ^ 970 /\ float_of_int n = Ok f
    | JFloat x => x = f
    | JBool b => f = FNum (inject_Z (if b then 1 else 0))
    | JNull | JList _ | JDict _ => False
    end.
Proof.
  assert (Hfloat : forall price,
            py_float price = Ok f <->
            match price with
            | JStr s => float_of_string s = Some f
            | JInt n => Z.abs n < 2 ^ 1024 - 2 ^ 970 /\ float_of_int n = Ok f
            | JFloat x => x = f
            | JBool b => f = FNum (inject_Z (if b then 1 else 0))
            | JNull | JList _ | JDict _ => False
            end).
  { intros price. rewrite py_float_ok. destruct price; try done.
    split; [|by intros [_ ?]]. intros Hn. split; [by eapply float_of_int_ok|done]. }
  unfold stock_price_of. split.
  - intros Hrun.
    destruct (let? details := getitem j "securityDetails" in _) as [x|e] eqn:Hbody;
      simpl in Hrun; [|by destruct e].
    injection Hrun as ->.
    apply and_then_ok in Hbody as (dv & Hd & Hbody).
    apply and_then_ok in Hbody as (price & Hp & Hf).
    apply getitem_ok in Hd as (top & -> & Hd).
    apply getitem_ok in Hp as (details & -> & Hp).
    exists top, details, price. by rewrite <- Hfloat.
  - intros (top & details & price & -> & Hd & Hp & Hf).
    apply Hfloat in Hf.
    simpl. rewrite Hd. simpl. rewrite Hp. simpl. by rewrite Hf.
Qed.

(** Of the exceptions raised while a response is taken apart, a [KeyError],
    [IndexError] or [ValueError] never reaches the caller of
    [_fetch_account_number], [get_account_total] or [get_stock_price]: the
    first lets out only its parse error or a [TypeError]; the other two let
    out, besides these, the [OverflowError] of an integer too large for a
    float ([2^1024 - 2^970] or more in absolute value), which no handler
    catches. *)
Theorem parsers_escape j e :
  (account_number_of j = Raise e -> parse_or_type_error e = true) /\
  (account_total_of j = Raise e ->
     parse_or_type_error e = true \/ e = OverflowError) /\
  (stock_price_of j = Raise e ->
     parse_or_type_error e = true \/ e = OverflowError) /\
  (forall n, 2 ^ 1024 - 2 ^ 970 <= Z.abs n ->
     account_total_of
       (JDict [("accounts",
                JList [JDict [("balanceSummary",
                               JDict [("totalAssets", JInt n)])]])])
       = Raise OverflowError /\
     stock_price_of
       (JDict [("securityDetails", JDict [("lastPrice", JInt n)])])
       = Raise OverflowError).
Proof.
  split_and!.
  - unfold account_number_of.
    destruct (let? user := getitem j "user" in _) as [x|e0] eqn:Hbody; [done|].
    assert (He0 : (exists k, e0 = KeyError k) \/ e0 = IndexError \/ e0 = TypeError).
    { apply and_then_raise in Hbody as [Hb|(? & _ & Hbody)];
        [apply getitem_raise in Hb as [->| ->]; eauto|].
      apply and_then_raise in Hbody as [Hb|(? & _ & Hbody)];
        [apply getitem_raise in Hb as [->| ->]; eauto|].
      apply and_then_raise in Hbody as [Hb|(? & _ & Hbody)];
        [apply getitem_raise in Hb as [->| ->]; eauto|].
      apply and_then_raise in Hbody as [Hb|(? & _ & Hbody)];
        [apply getitem0_raise in Hb as [->|[->| ->]]; eauto|].
      apply getitem_raise in Hbody as [->| ->]; eauto. }
    simpl. destruct He0 as [[k ->]|[->| ->]]; by intros [= <-].
  - unfold account_total_of.
    destruct j as [| | | |s|l|d]; simpl; try (intros [= <-]; by left).
    + destruct (substring_of "accounts" s); simpl; [|done]. intros [= <-]. by left.
    + destruct (existsb _ l); simpl; [|done]. intros [= <-]. by left.
    + destruct (assoc "accounts" d) as [v|] eqn:Hv; simpl; [|done].
      destruct (truthy v); [|done].
      destruct (total_assets v) as [f|e0] eqn:Hbody; [done|].
      assert (He0 : missing_or_not_a_number e0 = true \/ e0 = TypeError
                    \/ e0 = OverflowError).
      { unfold total_assets in Hbody.
        apply and_then_raise in Hbody as [Hb|(? & _ & Hbody)];
          [apply getitem0_raise in Hb as [->|[->| ->]]; auto|].
        apply and_then_raise in Hbody as [Hb|(? & _ & Hbody)];
          [apply getitem_raise in Hb as [->| ->]; auto|].
        apply and_then_raise in Hbody as [Hb|(? & _ & Hbody)];
          [apply getitem_raise in Hb as [->| ->]; auto|].
        apply py_float_raise in Hbody as [->|[->| ->]]; auto. }
      simpl. destruct He0 as [He0|[->| ->]];
        [|intros [= <-]; by left|intros [= <-]; by right].
      destruct e0; try done; intros [= <-]; by left.
  - unfold stock_price_of.
    destruct (let? details := getitem j "securityDetails" in _) as [f|e0] eqn:Hbody;
      [done|].
    assert (He0 : (exists k, e0 = KeyError k) \/ e0 = ValueError \/ e0 = TypeError
                  \/ e0 = OverflowError).
    { apply and_then_raise in Hbody as [Hb|(? & _ & Hbody)];
        [apply getitem_raise in Hb as [->| ->]; eauto|].
      apply and_then_raise in Hbody as [Hb|(? & _ & Hbody)];
        [apply getitem_raise in Hb as [->| ->]; eauto|].
      apply py_float_raise in Hbody as [->|[->| ->]]; eauto. }
    simpl. destruct He0 as [[k ->]|[->|[->| ->]]]; intros [= <-]; auto.
  - intros n Hn. apply float_of_int_overflow in Hn.
    unfold account_total_of, total_assets, stock_price_of. simpl. by rewrite Hn.
Qed.

(** ** Further properties of the accessors *)

Lemma get_account_total_fetched st account :
  logged_in (client st) = true ->
  get_account_total account st = fetched (balance_request account) account_total_of st.
Proof.
  intros Hin. unfold get_account_total, fetched. rewrite check_login_in by done.
  unfold bind, lift, raise_for_status.
  destruct (send _ st) as [[r|e] s1]; simpl; [|done].
  destruct (ok r); [|done]. by destruct (json_of r).
Qed.

Lemma get_positions_fetched st account :
  logged_in (client st) = true ->
  get_positions account st = fetched (positions_request account) Ok st.
Proof.
  intros Hin. unfold get_positions, fetched. rewrite check_login_in by done.
  unfold bind, lift, raise_for_status.
  destruct (send _ st) as [[r|e] s1]; simpl; [|done].
  destruct (ok r); [|done]. by destruct (json_of r).
Qed.

Lemma get_stock_details_fetched st ticker :
  logged_in (client st) = true ->
  get_stock_details ticker st = fetched (stock_details_request ticker) Ok st.
Proof.
  intros Hin. unfold get_stock_details, fetched. rewrite check_login_in by done.
  unfold bind, lift, raise_for_status.
  destruct (send _ st) as [[r|e] s1]; simpl; [|done].
  destruct (ok r); [|done]. by destruct (json_of r).
Qed.

Lemma get_account_holdings_fetched st account :
  logged_in (client st) = true ->
  get_account_holdings account st = fetched (positions_request account) positions_of st.
Proof.
  intros Hin. unfold get_account_holdings. rewrite check_login_in by done.
  unfold bind at 1. rewrite get_positions_fetched by done.
  unfold fetched, positions_of, bind, lift. simpl.
  destruct (fst (send _ st)) as [r|e]; [|done].
  destruct (ok r); [|done].
  destruct (json_of r) as [j|e]; [|done]. simpl.
  destruct (getitem j "accounts") as [accounts|e]; [|done]. simpl.
  destruct (getitem0 accounts) as [first|e]; [|done]. simpl.
  by destruct (dict_get first "positionsSummary" (JDict [])).
Qed.

Lemma get_stock_price_fetched st ticker :
  logged_in (client st) = true ->
  get_stock_price ticker st = fetched (stock_details_request ticker) stock_price_of st.
Proof.
  intros Hin. unfold get_stock_price. rewrite check_login_in by done.
  unfold bind at 1. rewrite get_stock_details_fetched by done.
  unfold fetched, lift. simpl.
  destruct (fst (send _ st)) as [r|e]; [|done].
  destruct (ok r); [|done]. by destruct (json_of r).
Qed.

Lemma fetched_failure_status {A} rq (parse : json -> outcome A) st r :
  reply_to rq st = Answer r -> ok r = false ->
  fst (fetched rq parse st) = Raise (HTTPError (status_code r)).
Proof. intros Hr Hok. unfold fetched. simpl. by rewrite (send_answer _ _ _ Hr), Hok. Qed.

Lemma fetched_no_reply {A} rq (parse : json -> outcome A) st msg :
  reply_to rq st = Failure msg ->
  fst (fetched rq parse st) = Raise (RequestsError msg).
Proof. intros Hr. unfold fetched. simpl. by rewrite (send_failure _ _ _ Hr). Qed.

(** On a logged-in client, a response with a failure status makes every
    accessor raise the [HTTPError] of that status, whatever the body holds:
    no parse error and no default value hides a transport failure.  The
    accessors that delegate ([get_account_holdings], [get_stock_price]) pass
    it on unchanged. *)
Theorem accessors_transport_error st account ticker r :
  logged_in (client st) = true ->
  ok r = false ->
  (reply_to (balance_request account) st = Answer r ->
     fst (get_account_total account st) = Raise (HTTPError (status_code r))) /\
  (reply_to (positions_request account) st = Answer r ->
     fst (get_positions account st) = Raise (HTTPError (status_code r)) /\
     fst (get_account_holdings account st) = Raise (HTTPError (status_code r))) /\
  (reply_to (stock_details_request ticker) st = Answer r ->
     fst (get_stock_details ticker st) = Raise (HTTPError (status_code r)) /\
     fst (get_stock_price ticker st) = Raise (HTTPError (status_code r))).
Proof.
  intros Hin Hok.
  rewrite get_account_total_fetched, get_positions_fetched, get_account_holdings_fetched,
    get_stock_details_fetched, get_stock_price_fetched by done.
  split_and!; intros Hr; try split; by apply fetched_failure_status.
Qed.

Lemma send_state rq st :
  snd (send rq st) =
  {| client :=
       with_session
         (with_cookies
            (match reply_to rq st with
             | Answer r => fold_left set_cookie (set_cookies r) (cookies (session (client st)))
             | Failure _ => cookies (session (client st))
             end)
            (session (client st)))
         (client st);
     world := with_requests (requests (world st) ++ [outgoing rq st]) (world st) |}.
Proof.
  unfold send. destruct (reply_to rq st); simpl; [done|].
  unfold with_world. f_equal. symmetry. apply with_jar_same.
Qed.

(** On a logged-in client every accessor sends exactly one request, the one
    of its endpoint ([get_account_holdings] and [get_stock_price] send the
    request of the accessor they delegate to, once).  Whether it returns or
    raises, the state it leaves is the old one with that request added to
    the log and the cookies of the response, if there was one, stored in the
    jar: [logged_in], [account_number], the credentials, the other settings
    of the session (impersonation, timeout, proxies, proxy authentication)
    and the files stay as they were. *)
Theorem accessors_send_one_request st account ticker :
  logged_in (client st) = true ->
  let after rq :=
    {| client :=
         with_session
           (with_cookies
              (match reply_to rq st with
               | Answer r =>
                   fold_left set_cookie (set_cookies r) (cookies (session (client st)))
               | Failure _ => cookies (session (client st))
               end)
              (session (client st)))
           (client st);
       world := with_requests (requests (world st) ++ [outgoing rq st]) (world st) |} in
  (snd (get_account_total account st) = after (balance_request account) /\
   sent_between st (snd (get_account_total account st))
     [outgoing (balance_request account) st] /\
   network_only st (snd (get_account_total account st))) /\
  (snd (get_positions account st) = after (positions_request account) /\
   sent_between st (snd (get_positions account st))
     [outgoing (positions_request account) st] /\
   network_only st (snd (get_positions account st))) /\
  (snd (get_account_holdings account st) = after (positions_request account) /\
   sent_between st (snd (get_account_holdings account st))
     [outgoing (positions_request account) st] /\
   network_only st (snd (get_account_holdings account st))) /\
  (snd (get_stock_details ticker st) = after (stock_details_request ticker) /\
   sent_between st (snd (get_stock_details ticker st))
     [outgoing (stock_details_request ticker) st] /\
   network_only st (snd (get_stock_details ticker st))) /\
  (snd (get_stock_price ticker st) = after (stock_details_request ticker) /\
   sent_between st (snd (get_stock_price ticker st))
     [outgoing (stock_details_request ticker) st] /\
   network_only st (snd (get_stock_price ticker st))).
Proof.
  intros Hin after. subst after.
  rewrite get_account_total_fetched, get_positions_fetched, get_account_holdings_fetched,
    get_stock_details_fetched, get_stock_price_fetched by done.
  unfold fetched. simpl.
  split_and!; first [apply send_state | apply send_sent | apply send_network_only].
Qed.

(** [get_account_holdings] guards nothing but the two [get] calls: on a
    successful response whose body is an object, a missing ["accounts"] key
    is a bare [KeyError] and an empty list a bare [IndexError]; when the
    first account is an object, a missing ["positionsSummary"] or a summary
    without ["positions"] gives the empty list, and a [null] summary is an
    [AttributeError]. *)
Theorem account_holdings_defaults st account r d :
  logged_in (client st) = true ->
  reply_to (positions_request account) st = Answer r ->
  ok r = true ->
  body r = Some (JDict d) ->
  let result := fst (get_account_holdings account st) in
  (assoc "accounts" d = None -> result = Raise (KeyError (KStr "accounts"))) /\
  (assoc "accounts" d = Some (JList []) -> result = Raise IndexError) /\
  (forall first rest, assoc "accounts" d = Some (JList (JDict first :: rest)) ->
     (assoc "positionsSummary" first = None -> result = Ok (JList [])) /\
     (assoc "positionsSummary" first = Some JNull -> result = Raise AttributeError) /\
     (forall summary, assoc "positionsSummary" first = Some (JDict summary) ->
        result = Ok (default (JList []) (assoc "positions" summary)))).
Proof.
  intros Hin Hr Hok Hbody result. subst result.
  rewrite get_account_holdings_fetched by done.
  unfold fetched, json_of. simpl. rewrite (send_answer _ _ _ Hr), Hok, Hbody.
  unfold positions_of. simpl.
  split_and!.
  - by intros ->.
  - by intros ->.
  - intros first rest ->. simpl. split_and!.
    + by intros ->.
    + by intros ->.
    + intros summary ->. simpl. by destruct (assoc "positions" summary).
Qed.

Section Restart.
Context `{!PickleLossless}.

(** After a fresh login that returned, the credential file holds the cookie
    jar of the logged-in client, so a client built afterwards by [__init__]
    with the same file name and directory starts with that very jar. *)
Theorem login_then_restart st st' user pass proxy auth dbg :
  (forall r, reply_to verify_request st = Answer r -> status_code r <> 200) ->
  login st = (Ok true, st') ->
  files (world st') !! cache_file (client st') = Some (credentials_of (client st')) /\
  cookies (session (client
    (init user pass (filename (client st')) (path (client st')) proxy auth dbg (world st'))))
    = cookies (session (client st')).
Proof.
  intros Hprobe Hrun.
  rewrite (login_fresh_eq _ _ (verify_login_false _ Hprobe)) in Hrun.
  unfold bind in Hrun.
  destruct (handshake _) as [[m|e] sh]; [|done].
  destruct (conclude_cases m sh) as [Hc|[Hc|[-> _]]];
    [by rewrite Hc in Hrun..|].
  rewrite conclude_created in Hrun.
  destruct (_fetch_account_number (mark_logged_in sh)) as [[a|e] s2]; [|done].
  destruct (fst (_save_credentials (record_account a s2))) as [[]|e] eqn:Hsave; [|done].
  injection Hrun as <-.
  rewrite saved_client. split; [by apply saved_file|].
  unfold init. rewrite load_saved by done.
  simpl. rewrite new_session_no_cookies. apply (right_id_L ∅ (∪)).
Qed.

End Restart.

End Properties.

(** ** The theorems at concrete runs *)

Lemma stored_lossless : @PickleLossless Run.stored.
Proof. intros o. reflexivity. Defined.

Lemma accessors_require_login_witness :
  get_account_total "Z123" Run.logged_out = (Raise NotLoggedInError, Run.logged_out) /\
  get_positions "Z123" Run.logged_out = (Raise NotLoggedInError, Run.logged_out) /\
  get_account_holdings "Z123" Run.logged_out = (Raise NotLoggedInError, Run.logged_out) /\
  get_stock_price "AAPL" Run.logged_out = (Raise NotLoggedInError, Run.logged_out) /\
  get_stock_details "AAPL" Run.logged_out = (Raise NotLoggedInError, Run.logged_out).
Proof. apply (accessors_require_login Run.logged_out "Z123" "AAPL"). reflexivity. Defined.

Lemma poll_status_branches_witness :
  login (Run.fresh "Authentication Not Completed" [])
    = (Raise OtpRequiredUnsupported,
       Run.after_poll (Run.fresh "Authentication Not Completed" [])) /\
  login (Run.fresh "Something Else" [])
    = (Raise (LoginRejectedError (JStr "Something Else")),
       Run.after_poll (Run.fresh "Something Else" [])) /\
  (login (Run.fresh "Session Created" [Run.answer 200 Run.details_body])
     = (Ok true,
        saved (record_account (JStr "Z123")
                 (Run.after_fetch
                    (Run.after_poll
                       (Run.fresh "Session Created" [Run.answer 200 Run.details_body]))))) /\
   files (world (saved (record_account (JStr "Z123")
                  (Run.after_fetch
                     (Run.after_poll
                        (Run.fresh "Session Created" [Run.answer 200 Run.details_body]))))))
     !! "./plynk_credentials.pkl"
     = Some (PDict {["cookies" := PCookies ∅]})) /\
  login Run.lost_directory
    = (Raise FileNotFoundError,
       saved (record_account (JStr "Z123")
                (Run.after_fetch (Run.after_poll Run.lost_directory)))).
Proof.
  split; [|split; [|split]].
  - apply (poll_status_branches
             (Run.fresh "Authentication Not Completed" [])
             (Run.after_probe (Run.fresh "Authentication Not Completed" []))
             (Run.after_poll (Run.fresh "Authentication Not Completed" []))
             (JStr "Authentication Not Completed")).
    + vm_compute. reflexivity.
    + vm_compute. reflexivity.
    + reflexivity.
  - apply (poll_status_branches
             (Run.fresh "Something Else" [])
             (Run.after_probe (Run.fresh "Something Else" []))
             (Run.after_poll (Run.fresh "Something Else" []))
             (JStr "Something Else")).
    + vm_compute. reflexivity.
    + vm_compute. reflexivity.
    + discriminate.
    + discriminate.
  - refine (proj1 (proj2 (proj2 (proj2 (proj2 (proj2 (poll_status_branches
             (Run.fresh "Session Created" [Run.answer 200 Run.details_body])
             (Run.after_probe (Run.fresh "Session Created" [Run.answer 200 Run.details_body]))
             (Run.after_poll (Run.fresh "Session Created" [Run.answer 200 Run.details_body]))
             (JStr "Session Created") _ _))) eq_refl)
             (JStr "Z123")
             (Run.after_fetch
                (Run.after_poll
                   (Run.fresh "Session Created" [Run.answer 200 Run.details_body])))
             _)) _).
    + vm_compute. reflexivity.
    + vm_compute. reflexivity.
    + vm_compute. reflexivity.
    + vm_compute. reflexivity.
  - refine (proj2 (proj2 (proj2 (proj2 (proj2 (proj2 (poll_status_branches
             Run.lost_directory
             (Run.after_probe Run.lost_directory)
             (Run.after_poll Run.lost_directory)
             (JStr "Session Created") _ _))) eq_refl)
             (JStr "Z123")
             (Run.after_fetch (Run.after_poll Run.lost_directory))
             _)) FileNotFoundError _).
    + vm_compute. reflexivity.
    + vm_compute. reflexivity.
    + vm_compute. reflexivity.
    + vm_compute. reflexivity.
Defined.

Lemma poll_status_branches_counterexample :
  fst (handshake (cleared (Run.after_probe
         (Run.fresh "Session Created" [Run.answer 500 JNull]))))
    = Ok (JStr "Session Created") /\
  fst (login (Run.fresh "Session Created" [Run.answer 500 JNull])) = Raise (HTTPError 500) /\
  files (world (snd (login (Run.fresh "Session Created" [Run.answer 500 JNull]))))
    !! "./plynk_credentials.pkl" = None.
Proof. vm_compute. repeat split. Qed.

Lemma session_reuse_witness :
  logged_in (client (snd (login Run.reuse_ok))) = true /\
  sent_between Run.reuse_ok (snd (login Run.reuse_ok))
    [outgoing verify_request Run.reuse_ok;
     outgoing details_request (mark_logged_in (Run.after_probe Run.reuse_ok))] /\
  Forall (fun s => req_method (sent_request s) = GET /\
                   req_url (sent_request s) = details_url)
    [outgoing verify_request Run.reuse_ok;
     outgoing details_request (mark_logged_in (Run.after_probe Run.reuse_ok))] /\
  files (world (snd (login Run.reuse_ok))) = files (world Run.reuse_ok) /\
  (forall a s2,
     _fetch_account_number (mark_logged_in (Run.after_probe Run.reuse_ok)) = (Ok a, s2) ->
     login Run.reuse_ok = (Ok true, record_account a s2) /\
     account_number (client (snd (login Run.reuse_ok))) = a).
Proof.
  apply (session_reuse Run.reuse_ok
           {| status_code := 200; body := Some Run.details_body; set_cookies := [] |}).
  - reflexivity.
  - reflexivity.
Defined.

Lemma session_reuse_counterexample :
  reply_to verify_request Run.reuse_bad_shape = Run.answer 200 (JDict []) /\
  fst (login Run.reuse_bad_shape)
    = Raise (RuntimeError
               [Text "Could not parse account number from details response: ";
                CaughtKeyError (KStr "user")]) /\
  account_number (client (snd (login Run.reuse_bad_shape))) = JNull.
Proof. vm_compute. repeat split. Qed.

Lemma clear_before_authentication_witness :
  (exists rest,
     sent_between (Run.fresh "Session Created" [Run.answer 200 Run.details_body])
       (snd (login (Run.fresh "Session Created" [Run.answer 200 Run.details_body])))
       (outgoing verify_request (Run.fresh "Session Created" [Run.answer 200 Run.details_body])
        :: @Build_Sent Run.stored
             {| req_method := POST; req_url := authentication_url;
                req_headers := build_headers "ecaap" false;
                req_json := Some (JDict [("username", JStr "ann");
                                         ("requestBaseInfo", JNull);
                                         ("password", JStr "secret")]);
                req_params := []; req_timeout := None |}
             {| impersonate := "safari_ios"; timeout := 10; proxies := ∅;
                session_proxy_auth := None; cookies := ∅ |}
             (delete "./plynk_credentials.pkl" Run.old_disk)
        :: rest) /\
     Forall elsewhere rest /\
     delete "./plynk_credentials.pkl" Run.old_disk !! "./plynk_credentials.pkl"
       = (None : option (@blob Run.stored))) /\
  (exists rest,
     sent_between Run.lost_directory (snd (login Run.lost_directory))
       (outgoing verify_request Run.lost_directory
        :: @Build_Sent Run.stored
             {| req_method := POST; req_url := authentication_url;
                req_headers := build_headers "ecaap" false;
                req_json := Some (JDict [("username", JStr "ann");
                                         ("requestBaseInfo", JNull);
                                         ("password", JStr "secret")]);
                req_params := []; req_timeout := None |}
             {| impersonate := "safari_ios"; timeout := 10;
                proxies := <["http" := "http://proxy.example:8080"]>
                             (<["https" := "http://proxy.example:8080"]> ∅);
                session_proxy_auth := Some ("ann", "pw"); cookies := ∅ |}
             (delete "./cache/plynk.pkl" ∅)
        :: rest) /\
     Forall elsewhere rest).
Proof.
  split.
  - destruct (clear_before_authentication
                (Run.fresh "Session Created" [Run.answer 200 Run.details_body]))
      as (rest & Hsent & Hels & _ & Hfile).
    + intros r [= <-]. discriminate.
    + exists rest. split; [exact Hsent|split; [exact Hels|exact Hfile]].
  - destruct (clear_before_authentication Run.lost_directory)
      as (rest & Hsent & Hels & _ & _).
    + intros r [= <-]. discriminate.
    + exists rest. split; [exact Hsent|exact Hels].
Defined.

Lemma fetch_failure_leaves_logged_in_witness :
  (login Run.reuse_bad_shape
     = (Raise (RuntimeError
                 [Text "Could not parse account number from details response: ";
                  CaughtKeyError (KStr "user")]),
        Run.after_fetch (Run.after_probe Run.reuse_bad_shape)) /\
   logged_in (client (Run.after_fetch (Run.after_probe Run.reuse_bad_shape))) = true) /\
  (login (Run.fresh "Session Created" [Run.answer 500 JNull])
     = (Raise (HTTPError 500),
        Run.after_fetch (Run.after_poll (Run.fresh "Session Created" [Run.answer 500 JNull]))) /\
   logged_in (client (Run.after_fetch
                        (Run.after_poll (Run.fresh "Session Created" [Run.answer 500 JNull]))))
     = true /\
   files (world (Run.after_fetch
                   (Run.after_poll (Run.fresh "Session Created" [Run.answer 500 JNull]))))
     !! "./plynk_credentials.pkl" = None).
Proof.
  split.
  - apply (proj1 (fetch_failure_leaves_logged_in Run.reuse_bad_shape _ _)
             (Run.after_probe Run.reuse_bad_shape)).
    + vm_compute. reflexivity.
    + vm_compute. reflexivity.
  - pose proof (proj2 (fetch_failure_leaves_logged_in
                         (Run.fresh "Session Created" [Run.answer 500 JNull])
                         (HTTPError 500)
                         (Run.after_fetch
                            (Run.after_poll (Run.fresh "Session Created" [Run.answer 500 JNull]))))
                  (Run.after_probe (Run.fresh "Session Created" [Run.answer 500 JNull]))
                  (Run.after_poll (Run.fresh "Session Created" [Run.answer 500 JNull])))
      as Hfresh.
    destruct Hfresh as (Hlogin & Hin & _ & Hfile).
    + vm_compute. reflexivity.
    + vm_compute. reflexivity.
    + vm_compute. reflexivity.
    + split; [exact Hlogin|split; [exact Hin|exact Hfile]].
Defined.




(** C7, where the code departs from the claim: on the stock details
    [{"securityDetails": {"lastPrice": null}}] the price is not numeric, and
    [get_stock_price] raises the [TypeError] of [float(None)], which its
    [except (KeyError, ValueError)] does not catch, and not the parse
    error. *)
Theorem stock_price_null_is_type_error :
  fst (get_stock_price "AAPL" (Run.signed_in [Run.answer 200 Run.null_price]))
    = Raise TypeError /\
  TypeError <> StockPriceParseError.
Proof. split; [vm_compute; reflexivity|discriminate]. Qed.

Lemma save_then_load_witness :
  cookies (session (client (snd (_load_credentials
     {| client := Run.user false ∅;
        world := world (saved (Run.start true Run.old_jar ∅ [])) |}))))
    = Run.old_jar /\
  (forall rq,
     cookies (sent_session (outgoing rq (snd (_load_credentials
       {| client := Run.user false ∅;
          world := world (saved (Run.start true Run.old_jar ∅ [])) |})))) = Run.old_jar) /\
  (forall user pass proxy auth dbg,
     cookies (session (client
       (init user pass "plynk_credentials.pkl" None proxy auth dbg
          (world (saved (Run.start true Run.old_jar ∅ [])))))) = Run.old_jar).
Proof.
  apply (@save_then_load Run.stored stored_lossless
           (Run.start true Run.old_jar ∅ []) (Run.user false ∅)); reflexivity.
Defined.

(** ** The further properties at concrete runs *)

Lemma load_credentials_tolerant_witness :
  snd (_load_credentials Run.before_junk_load) = Run.before_junk_load /\
  cookies (session (client (snd (_load_credentials Run.before_pairs_load))))
    = <["plynk.example" := {["/" := {["sid" := Run.sid]}]}]> Run.stale_jar.
Proof.
  split.
  - apply (proj1 (proj2 (proj2 (proj2 (proj2 (proj2
             (load_credentials_tolerant Run.before_junk_load)))))) PNotDict);
      reflexivity.
  - exact (proj2 (proj2 (proj2 (proj2 (proj2 (proj2 (proj2
             (load_credentials_tolerant Run.before_pairs_load)))))))
             (PDict {["cookies" := PPairs [("plynk.example", {["/" := {["sid" := Run.sid]}]})]]})
             {["cookies" := PPairs [("plynk.example", {["/" := {["sid" := Run.sid]}]})]]}
             [("plynk.example", {["/" := {["sid" := Run.sid]}]})]
             eq_refl eq_refl eq_refl).
Defined.


Lemma load_credentials_merge_witness :
  cookies (session (client (snd (_load_credentials Run.before_load)))) !! "plynk.example"
    = Run.old_jar !! "plynk.example" /\
  cookies (session (client (snd (_load_credentials Run.before_load)))) !! "other.example"
    = Run.stale_jar !! "other.example".
Proof.
  split.
  - apply (load_credentials_merge Run.before_load
             (PDict {["cookies" := PCookies Run.old_jar]})
             {["cookies" := PCookies Run.old_jar]} Run.old_jar
             eq_refl eq_refl eq_refl "plynk.example").
  - apply (load_credentials_merge Run.before_load
             (PDict {["cookies" := PCookies Run.old_jar]})
             {["cookies" := PCookies Run.old_jar]} Run.old_jar
             eq_refl eq_refl eq_refl "other.example").
Defined.

Lemma login_never_logs_out_witness :
  logged_in (client (snd (login Run.refused))) = true.
Proof. apply (login_never_logs_out Run.refused). reflexivity. Defined.


Lemma failed_handshake_witness :
  login Run.refused
    = (Raise (HTTPError 403), snd (handshake (cleared (Run.after_probe Run.refused)))) /\
  logged_in (client (snd (handshake (cleared (Run.after_probe Run.refused))))) = true /\
  account_number (client (snd (handshake (cleared (Run.after_probe Run.refused))))) = JNull /\
  files (world (snd (handshake (cleared (Run.after_probe Run.refused)))))
    = delete "./plynk_credentials.pkl" Run.old_disk.
Proof.
  apply (failed_handshake Run.refused (Run.after_probe Run.refused) (HTTPError 403)
           (snd (handshake (cleared (Run.after_probe Run.refused))))).
  - vm_compute. reflexivity.
  - vm_compute. reflexivity.
Defined.

Lemma rejected_password_witness :
  fst (login Run.refused) = Raise (HTTPError 403) /\
  sent_between Run.refused (snd (login Run.refused))
    [outgoing verify_request Run.refused;
     outgoing (authentication_request (client Run.refused))
       (cleared (Run.after_probe Run.refused))].
Proof.
  apply (rejected_password Run.refused
           {| status_code := 403; body := Some JNull; set_cookies := [] |}).
  - intros r [= <-]. discriminate.
  - reflexivity.
  - reflexivity.
Defined.

Lemma poll_without_status_witness :
  fst (login (Run.polled (JDict []))) = Raise (LoginRejectedError (JStr "")) /\
  fst (login (Run.polled (JDict [("responseBaseInfo", JNull)]))) = Raise AttributeError.
Proof.
  split.
  - apply (proj1 (poll_without_status (Run.polled (JDict []))
             {| status_code := 200; body := Some JNull; set_cookies := [] |}
             {| status_code := 200; body := Some (JDict []); set_cookies := [] |}
             []
             ltac:(intros r [= <-]; discriminate)
             eq_refl eq_refl eq_refl eq_refl eq_refl)).
    reflexivity.
  - apply (proj2 (poll_without_status (Run.polled (JDict [("responseBaseInfo", JNull)]))
             {| status_code := 200; body := Some JNull; set_cookies := [] |}
             {| status_code := 200; body := Some (JDict [("responseBaseInfo", JNull)]);
                set_cookies := [] |}
             [("responseBaseInfo", JNull)]
             ltac:(intros r [= <-]; discriminate)
             eq_refl eq_refl eq_refl eq_refl eq_refl)).
    reflexivity.
Defined.

Lemma parsers_escape_witness :
  parse_or_type_error
    (RuntimeError [Text "Could not parse account number from details response: ";
                   CaughtKeyError (KStr "user")]) = true /\
  (parse_or_type_error AccountTotalParseError = true \/
   AccountTotalParseError = OverflowError) /\
  stock_price_of (JDict [("securityDetails", JDict [("lastPrice", JInt (10 ^ 400))])])
    = Raise OverflowError.
Proof.
  split; [|split].
  - exact (proj1 (parsers_escape (JDict []) _) eq_refl).
  - exact (proj1 (proj2 (parsers_escape Run.no_total _)) eq_refl).
  - refine (proj2 (proj2 (proj2 (proj2 (parsers_escape JNull TypeError))) (10 ^ 400) _)).
    vm_compute. discriminate.
Defined.

Lemma accessors_transport_error_witness :
  fst (get_account_total "Z123" (Run.signed_in [Run.answer 500 Run.empty_accounts]))
    = Raise (HTTPError 500) /\
  fst (get_account_holdings "Z123" (Run.signed_in [Run.answer 500 Run.empty_accounts]))
    = Raise (HTTPError 500) /\
  fst (get_stock_price "AAPL" (Run.signed_in [Run.answer 500 Run.empty_accounts]))
    = Raise (HTTPError 500).
Proof.
  pose proof (accessors_transport_error
                (Run.signed_in [Run.answer 500 Run.empty_accounts]) "Z123" "AAPL"
                {| status_code := 500; body := Some Run.empty_accounts; set_cookies := [] |}
                eq_refl eq_refl) as (Htotal & Hpositions & Hstock).
  split; [exact (Htotal eq_refl)|].
  split; [exact (proj2 (Hpositions eq_refl))|exact (proj2 (Hstock eq_refl))].
Defined.

Lemma accessors_send_one_request_witness :
  snd (get_account_holdings "Z123"
         (Run.signed_in [Run.answer 200 Run.one_account_without_summary]))
    = @Build_State Run.stored (Run.user true ∅)
        (@Build_World Run.stored ∅ ∅
           [outgoing (positions_request "Z123")
              (Run.signed_in [Run.answer 200 Run.one_account_without_summary])]
           (Run.scripted [Run.answer 200 Run.one_account_without_summary])) /\
  sent_between (Run.signed_in [Run.answer 200 Run.one_account_without_summary])
    (snd (get_account_holdings "Z123"
            (Run.signed_in [Run.answer 200 Run.one_account_without_summary])))
    [outgoing (positions_request "Z123")
       (Run.signed_in [Run.answer 200 Run.one_account_without_summary])].
Proof.
  pose proof (proj1 (proj2 (proj2 (accessors_send_one_request
                (Run.signed_in [Run.answer 200 Run.one_account_without_summary])
                "Z123" "AAPL" eq_refl)))) as (Hstate & Hsent & _).
  split; [exact Hstate|exact Hsent].
Defined.

Lemma account_holdings_defaults_witness :
  fst (get_account_holdings "Z123"
         (Run.signed_in [Run.answer 200 Run.one_account_without_summary]))
    = Ok (JList []) /\
  fst (get_account_holdings "Z123" (Run.signed_in [Run.answer 200 Run.empty_accounts]))
    = Raise IndexError /\
  fst (get_account_holdings "Z123" (Run.signed_in [Run.answer 200 (JDict [])]))
    = Raise (KeyError (KStr "accounts")).
Proof.
  split; [|split].
  - apply (proj1 (proj2 (proj2 (account_holdings_defaults
             (Run.signed_in [Run.answer 200 Run.one_account_without_summary]) "Z123"
             {| status_code := 200; body := Some Run.one_account_without_summary;
                set_cookies := [] |}
             [("accounts", JList [JDict [("accountNumber", JStr "Z123")]])]
             eq_refl eq_refl eq_refl eq_refl))
             [("accountNumber", JStr "Z123")] [] eq_refl)).
    reflexivity.
  - apply (proj1 (proj2 (account_holdings_defaults
             (Run.signed_in [Run.answer 200 Run.empty_accounts]) "Z123"
             {| status_code := 200; body := Some Run.empty_accounts; set_cookies := [] |}
             [("accounts", JList [])]
             eq_refl eq_refl eq_refl eq_refl))).
    reflexivity.
  - apply (proj1 (account_holdings_defaults
             (Run.signed_in [Run.answer 200 (JDict [])]) "Z123"
             {| status_code := 200; body := Some (JDict []); set_cookies := [] |}
             []
             eq_refl eq_refl eq_refl eq_refl)).
    reflexivity.
Defined.

Lemma login_then_restart_witness :
  cookies (session (client
    (init "bob" "hunter2" "plynk_credentials.pkl" None None None false
       (world (snd (login Run.granted))))))
    = cookies (session (client (snd (login Run.granted)))) /\
  cookies (session (client (snd (login Run.granted)))) = Run.old_jar.
Proof.
  split; [|vm_compute; reflexivity].
  apply (@login_then_restart Run.stored stored_lossless
           Run.granted (snd (login Run.granted)) "bob" "hunter2" None None false).
  - intros r [= <-]. discriminate.
  - vm_compute. reflexivity.
Defined.
